(** * run_prog.py: a simulated diagnostic console for an Alveo U50 card

    Shallow embedding of [src/run_prog.py] and the properties of its
    startup sequencer, its four diagnostic operations and its menu loop.

    Conventions of the embedding.
    - A Python [str] is a [string]; text is taken to be ASCII except for the
      block character of the progress bar, which is written as its UTF-8
      bytes. [lower], [strip] and [splitlines] are exact on ASCII text.
    - A Python [int] is a [Z]; a Python [float] is a binary64 [float] of the
      kernel, with the same rounding as CPython's arithmetic.
    - Randomness is an infinite tape of raw draws [nat -> N] read through a
      cursor; every call of the [random] module consumes one cell and maps it
      into the range of the call, so that quantifying over tapes covers every
      sequence of results the library can return.
    - Effects are a trace of events (writes to stdout and stderr, sleeps,
      shell commands) with an outcome: a value, [sys.exit] or an uncaught
      exception. *)

From Stdlib Require Import ZArith String Ascii List Floats Uint63 Lia Bool.
From stdpp Require Import gmap strings.

Set Warnings "-inexact-float".

(** ** Python strings *)

Module PyStr.

Definition LF : ascii := "010"%char.
Definition CR : ascii := "013"%char.

(** The one-character string ["\n"]. *)
Definition nl : string := String LF "".

(** [s.startswith(p)] *)
Fixpoint startswith (p s : string) : bool :=
  match p, s with
  | EmptyString, _ => true
  | String _ _, EmptyString => false
  | String a p', String b s' => Ascii.eqb a b && startswith p' s'
  end.

(** [p in s] *)
Fixpoint contains (p s : string) : bool :=
  startswith p s ||
  match s with
  | EmptyString => false
  | String _ s' => contains p s'
  end.

Definition lower_char (c : ascii) : ascii :=
  let n := nat_of_ascii c in
  if (65 <=? n)%nat && (n <=? 90)%nat then ascii_of_nat (n + 32) else c.

(** [s.lower()] *)
Fixpoint lower (s : string) : string :=
  match s with
  | EmptyString => EmptyString
  | String c s' => String (lower_char c) (lower s')
  end.

(** [c.isspace()] on ASCII: TAB, LF, VT, FF, CR, FS, GS, RS, US, space. *)
Definition isspace (c : ascii) : bool :=
  let n := nat_of_ascii c in
  ((9 <=? n)%nat && (n <=? 13)%nat) || ((28 <=? n)%nat && (n <=? 32)%nat).

Fixpoint lstrip (s : string) : string :=
  match s with
  | EmptyString => EmptyString
  | String c s' => if isspace c then lstrip s' else s
  end.

Fixpoint rstrip (s : string) : string :=
  match s with
  | EmptyString => EmptyString
  | String c s' =>
      match rstrip s' with
      | EmptyString => if isspace c then EmptyString else String c EmptyString
      | r => String c r
      end
  end.

(** [s.strip()] *)
Definition strip (s : string) : string := rstrip (lstrip s).

(** [s.split(sep)] for a one-character separator. *)
Fixpoint split (sep : ascii) (s : string) : list string :=
  match s with
  | EmptyString => [EmptyString]
  | String c s' =>
      if Ascii.eqb c sep then EmptyString :: split sep s'
      else match split sep s' with
           | l :: ls => String c l :: ls
           | [] => [String c EmptyString]
           end
  end.

(** [s.split(sep, 1)] for a one-character separator. *)
Fixpoint split1 (sep : ascii) (s : string) : list string :=
  match s with
  | EmptyString => [EmptyString]
  | String c s' =>
      if Ascii.eqb c sep then [EmptyString; s']
      else match split1 sep s' with
           | l :: ls => String c l :: ls
           | [] => [String c EmptyString]
           end
  end.

(** [xs[-1]] of a non-empty list (the default is never used on the result
    of [split], which is never empty). *)
Definition last_item (xs : list string) : string := List.last xs EmptyString.

(** ASCII line boundaries of [str.splitlines]: LF, VT, FF, CR, FS, GS, RS. *)
Definition is_linebreak (c : ascii) : bool :=
  let n := nat_of_ascii c in
  ((10 <=? n)%nat && (n <=? 13)%nat) || ((28 <=? n)%nat && (n <=? 30)%nat).

(** [s.splitlines()]: CR LF counts as one boundary, and a final boundary
    opens no empty last line. *)
Fixpoint splitlines (s : string) : list string :=
  match s with
  | EmptyString => []
  | String c s' =>
      if is_linebreak c then
        match s' with
        | String d s'' =>
            if Ascii.eqb c CR && Ascii.eqb d LF
            then EmptyString :: splitlines s''
            else EmptyString :: splitlines s'
        | EmptyString => [EmptyString]
        end
      else match splitlines s' with
           | l :: ls =>
               match s' with
               | EmptyString => [String c EmptyString]
               | String _ _ => String c l :: ls
               end
           | [] => [String c EmptyString]
           end
  end.

(** The lines of a text written to a terminal: [text.split("\n")]. *)
Definition lines (text : string) : list string := split LF text.

(** [''.join(xs)] *)
Definition concat (xs : list string) : string :=
  fold_right String.append EmptyString xs.

(** [c * n] for a string [c]. *)
Fixpoint repeat_str (c : string) (n : nat) : string :=
  match n with
  | O => EmptyString
  | S n' => c +:+ repeat_str c n'
  end.

(** *** Integers to text *)

Definition digit_char (upper : bool) (d : Z) : ascii :=
  if (d <? 10)%Z then ascii_of_nat (48 + Z.to_nat d)
  else ascii_of_nat ((if upper then 55 else 87) + Z.to_nat d).

(** The digits of [n >= 0] in base [b], most significant first; [fuel]
    bounds the number of digits. *)
Fixpoint digits (upper : bool) (b : Z) (fuel : nat) (n : Z) (acc : string)
  : string :=
  match fuel with
  | O => acc
  | S fuel' =>
      let acc' := String (digit_char upper (n mod b)) acc in
      if (n / b =? 0)%Z then acc' else digits upper b fuel' (n / b) acc'
  end.

Definition natural (upper : bool) (b : Z) (n : Z) : string :=
  digits upper b (S (Z.to_nat (Z.log2 n))) n EmptyString.

(** [str(n)] *)
Definition str_int (n : Z) : string :=
  if (n <? 0)%Z then "-" +:+ natural false 10 (- n) else natural false 10 n.

(** [hex(n)] *)
Definition hex (n : Z) : string :=
  if (n <? 0)%Z then "-0x" +:+ natural false 16 (- n)
  else "0x" +:+ natural false 16 n.

(** [s.zfill(w)] for a string of digits. *)
Definition zfill (w : nat) (s : string) : string :=
  repeat_str "0" (w - String.length s) +:+ s.

(** [format(n, "X")] *)
Definition format_X (n : Z) : string :=
  if (n <? 0)%Z then "-" +:+ natural true 16 (- n) else natural true 16 n.

(** [format(n, "0wX")]: the sign counts in the width. *)
Definition format_0X (w : nat) (n : Z) : string :=
  if (n <? 0)%Z then "-" +:+ zfill (w - 1) (natural true 16 (- n))
  else zfill w (natural true 16 n).

(** [repr(s)] of a string without quotes or escapes. *)
Definition repr_str (s : string) : string := "'" +:+ s +:+ "'".

Fixpoint join (sep : string) (xs : list string) : string :=
  match xs with
  | [] => EmptyString
  | [x] => x
  | x :: xs' => x +:+ sep +:+ join sep xs'
  end.

(** [str(xs)] for a list of such strings. *)
Definition str_list (xs : list string) : string :=
  "[" +:+ join ", " (map repr_str xs) +:+ "]".

End PyStr.

(** ** Python floats *)

Module PyFloat.

(** [float(n)] for an [int] below [2^53] in magnitude. *)
Definition of_int (n : Z) : float :=
  if (n <? 0)%Z then PrimFloat.opp (PrimFloat.of_uint63 (Uint63.of_Z (- n)))
  else PrimFloat.of_uint63 (Uint63.of_Z n).

(** [int(x)]: truncation toward zero ([None] for nan and the infinities,
    where Python raises). *)
Definition to_int (x : float) : option Z :=
  match Prim2SF x with
  | S754_zero _ => Some 0%Z
  | S754_finite s m e =>
      let a := if (0 <=? e)%Z then Z.shiftl (Z.pos m) e
               else Z.shiftr (Z.pos m) (- e) in
      Some (if s then (- a)%Z else a)
  | _ => None
  end.

(** [m * 2^e * 100] rounded to the nearest integer, ties to even. *)
Definition hundredths (m : positive) (e : Z) : Z :=
  if (0 <=? e)%Z then Z.shiftl (Z.pos m * 100) e
  else
    let d := Z.shiftl 1 (- e) in
    let q := (Z.pos m * 100 / d)%Z in
    let r := (Z.pos m * 100 mod d)%Z in
    match (2 * r ?= d)%Z with
    | Lt => q
    | Gt => (q + 1)%Z
    | Eq => if Z.even q then q else (q + 1)%Z
    end.

(** [format(x, ".2f")] *)
Definition format_2f (x : float) : string :=
  match Prim2SF x with
  | S754_zero s => (if s then "-" else "") +:+ "0.00"
  | S754_infinity s => (if s then "-" else "") +:+ "inf"
  | S754_nan => "nan"
  | S754_finite s m e =>
      let h := hundredths m e in
      (if s then "-" else "") +:+ PyStr.str_int (h / 100) +:+ "." +:+
      PyStr.zfill 2 (PyStr.str_int (h mod 100))
  end.

End PyFloat.

(** ** Effects *)

(** What the process does to the outside world, in order. *)
Inductive event : Type :=
  | Out (text : string)       (* written to standard output *)
  | Err (text : string)       (* the message of [sys.exit(msg)], on stderr *)
  | Sleep (seconds : float)   (* [time.sleep] *)
  | System (cmd : string).    (* [os.system] *)

(** The exceptions the script can meet, all of them subclasses of
    [Exception]. Signals that interrupt the process from outside are not
    part of the model. *)
Inductive exn : Type :=
  | NameError (name : string)
  | ValueError
  | EOFError
  | FileNotFoundError
  | CalledProcessError (returncode : Z)
  | UnicodeDecodeError.

Inductive outcome (A : Type) : Type :=
  | Ret (a : A)               (* normal completion *)
  | Exit (status : Z)         (* [sys.exit] *)
  | Raise (e : exn).          (* an exception nobody caught *)

Arguments Ret {A} a.
Arguments Exit {A} status.
Arguments Raise {A} e.

(** A computation reads the random tape from a cursor and yields its trace,
    its outcome and the new cursor. *)
Definition M (A : Type) : Type := nat -> list event * outcome A * nat.

Definition ret {A} (a : A) : M A := fun p => ([], Ret a, p).

Definition bind {A B} (m : M A) (k : A -> M B) : M B := fun p =>
  match m p with
  | (ev, Ret a, p') => let '(ev', o, p'') := k a p' in (ev ++ ev', o, p'')
  | (ev, Exit c, p') => (ev, Exit c, p')
  | (ev, Raise e, p') => (ev, Raise e, p')
  end.

Declare Scope py_scope.
Delimit Scope py_scope with py.
Notation "x <- m ;; k" := (bind m (fun x => k))
  (at level 100, m at next level, k at level 200, right associativity)
  : py_scope.
Notation "m ;; k" := (bind m (fun _ => k))
  (at level 100, k at level 200, right associativity) : py_scope.
Open Scope py_scope.

Definition emit (e : event) : M unit := fun p => ([e], Ret tt, p).

Definition raise {A} (e : exn) : M A := fun p => ([], Raise e, p).

(** [sys.stdout.write(s)] and [print(s, end="")] *)
Definition write (s : string) : M unit := emit (Out s).

(** [print(s)] *)
Definition print (s : string) : M unit := emit (Out (s +:+ PyStr.nl)).

(** [time.sleep(t)] for a [t] it accepts: not negative and within the range
    of the clock, as the constant and the random sleeps of the script are.
    For another [t] Python raises and the model does not apply. *)
Definition sleep (t : float) : M unit := emit (Sleep t).

(** [os.system(cmd)] *)
Definition os_system (cmd : string) : M unit := emit (System cmd).

(** [sys.exit(n)] *)
Definition sys_exit {A} (status : Z) : M A := fun p => ([], Exit status, p).

(** [sys.exit(msg)]: the message goes to stderr and the status is 1. *)
Definition sys_exit_msg {A} (msg : string) : M A :=
  fun p => ([Err (msg +:+ PyStr.nl)], Exit 1%Z, p).

(** [try: body  except Exception: handler]; [sys.exit] is not an
    [Exception] and passes through. *)
Definition try_except {A} (body handler : M A) : M A := fun p =>
  match body p with
  | (ev, Raise _, p') => let '(ev', o, p'') := handler p' in (ev ++ ev', o, p'')
  | r => r
  end.

(** [for x in xs: body(x)] *)
Fixpoint for_each {A} (xs : list A) (body : A -> M unit) : M unit :=
  match xs with
  | [] => ret tt
  | x :: xs' => body x ;; for_each xs' body
  end.

(** [[m for _ in range(n)]] *)
Fixpoint collect {A} (n : nat) (m : M A) : M (list A) :=
  match n with
  | O => ret []
  | S n' => x <- m ;; xs <- collect n' m ;; ret (x :: xs)
  end.

(** [int(x)] *)
Definition py_int (x : float) : M Z :=
  match PyFloat.to_int x with
  | Some n => ret n
  | None => raise ValueError
  end.

(** [range(n)] *)
Definition range (n : nat) : list Z := map Z.of_nat (seq 0 n).

(** [sum(xs)] *)
Definition sum (xs : list Z) : Z := fold_left Z.add xs 0%Z.

(** The text written to standard output by a trace. *)
Fixpoint stdout_text (ev : list event) : string :=
  match ev with
  | [] => EmptyString
  | Out s :: ev' => s +:+ stdout_text ev'
  | _ :: ev' => stdout_text ev'
  end.

(** The lines a reader of standard output sees. *)
Definition output_lines (ev : list event) : list string :=
  PyStr.lines (stdout_text ev).

(** The exit status the shell sees. *)
Definition exit_status {A} (o : outcome A) : Z :=
  match o with
  | Ret _ => 0%Z
  | Exit status => status
  | Raise _ => 1%Z
  end.

(** ** The record of device identity, [devinfo] *)

Record DeviceInfo : Type := {
  device : string;
  firmware : string;
  connection : string;
  serial : string
}.

(** What [subprocess.run(..., check=True)] does: it returns the captured
    output, or raises (the tool is missing, it exits with a non-zero status,
    its output does not decode). *)
Inductive run_result : Type :=
  | Completed (stdout : string)
  | Failed (e : exn).

(** The module-level names the functions read. *)
Record globals : Type := {
  TARGET_DEVICE : string;
  BITSTREAM_FILE : string;
  OUTPUT_DIR : string
}.

(** The four diagnostic operations and the other ways a menu line is taken. *)
Inductive MenuCommand : Type :=
  | CmdHbm | CmdPcie | CmdTemp | CmdSend | CmdQuit | CmdInvalid.

(** ** Configuration (lines 12-44) *)

(** [os.path.join(a, b)] for a relative [b] and an [a] without final slash. *)
Definition path_join (a b : string) : string := a +:+ "/" +:+ b.

Definition XRT_BIN_PATH : string := "/opt/xilinx/xrt/bin".
Definition XBUTIL_CMD : string := path_join XRT_BIN_PATH "xbutil".
Definition CONFIG_FILE : string := "./prog_config.txt".
Definition BIT_DIR : string := "./bit_file".
Definition PROGRAM_DURATION : Z := 25.
Definition PROGRESS_BAR_WIDTH : nat := 50.

(** The modules imported on lines 1-5. *)
Definition module_imports : list string :=
  ["time"; "os"; "sys"; "random"; "subprocess"].

(** Reading a module-level name: [NameError] when nothing bound it. Every
    module the script names is imported on lines 1-5 but for the one of line
    35, which is where the lookup is written out. *)
Definition module_lookup (imports : list string) (name : string) : M unit :=
  if existsb (String.eqb name) imports then ret tt
  else raise (NameError name).

(** [s.endswith(suffix)] *)
Definition endswith (suffix s : string) : bool :=
  let n := String.length s in
  let k := String.length suffix in
  (k <=? n)%nat && String.eqb (String.substring (n - k) k s) suffix.

(** [fnmatch(name, "*.bit")] as [glob] applies it: a name that starts with a
    dot is hidden from a pattern that does not. *)
Definition matches_bit (name : string) : bool :=
  endswith ".bit" name && negb (PyStr.startswith "." name).

(** [s.rstrip("/")] *)
Fixpoint rstrip_slash (s : string) : string :=
  match s with
  | EmptyString => EmptyString
  | String c s' =>
      match rstrip_slash s' with
      | EmptyString =>
          if Ascii.eqb c "/" then EmptyString else String c EmptyString
      | r => String c r
      end
  end.

(** [os.path.dirname(p)] on POSIX: the text up to the last slash, without
    its final slashes unless it is made of slashes only. *)
Definition dirname (p : string) : string :=
  match rev (PyStr.split "/" p) with
  | [] | [_] => EmptyString
  | _ :: parents =>
      let head := PyStr.join "/" (rev parents) +:+ "/" in
      if String.eqb head (PyStr.repeat_str "/" (String.length head)) then head
      else rstrip_slash head
  end.

(** One step of [sorted(..., key=os.path.getmtime)]: [x] goes after every
    entry that is not newer, so that the sort is stable. *)
Fixpoint insert_by_mtime (x : string * float) (l : list (string * float))
  : list (string * float) :=
  match l with
  | [] => [x]
  | y :: l' =>
      if PrimFloat.ltb (snd x) (snd y) then x :: l
      else y :: insert_by_mtime x l'
  end.

Definition sorted_by_mtime (l : list (string * float))
  : list (string * float) :=
  fold_left (fun acc x => insert_by_mtime x acc) l [].

(** The body of the loop of lines 23-26. *)
Definition parse_line (line : string) (config : gmap string string)
  : M (gmap string string) :=
  if PyStr.contains "=" line then
    match PyStr.split1 "="%char (PyStr.strip line) with
    | [key; value] => ret (<[PyStr.strip key := PyStr.strip value]> config)
    | _ => raise ValueError
    end
  else ret config.

Fixpoint parse_config (lines : list string) (config : gmap string string)
  : M (gmap string string) :=
  match lines with
  | [] => ret config
  | line :: lines' => config' <- parse_line line config ;;
                      parse_config lines' config'
  end.

Section World.

(** The random tape. *)
Variable tape : nat -> N.
(** [os.name] *)
Variable os_name : string.
(** The lines of [./prog_config.txt], [None] when the file is missing. *)
Variable config_file : option (list string).
(** The entries of [./bit_file] in directory order, with their
    modification times; empty when the directory is missing. *)
Variable bit_dir : list (string * float).
(** Whether the bitstream still exists when step 2 looks for it. *)
Variable bitstream_exists : bool.
(** What running [xbutil examine] does. *)
Variable xbutil : run_result.

(** *** The [random] module *)

(** [random.random()]: 53 random bits scaled into [[0, 1)]. *)
Definition random_random : M float := fun p =>
  ([], Ret (PyFloat.of_int (Z.of_N (tape p mod 2 ^ 53)) / 9007199254740992)%float,
   S p).

(** [random.uniform(a, b)] *)
Definition random_uniform (a b : float) : M float :=
  r <- random_random ;; ret (a + (b - a) * r)%float.

(** [random.choice(xs)] for a non-empty [xs]. *)
Definition random_choice {A} (d : A) (xs : list A) : M A := fun p =>
  ([], Ret (nth (N.to_nat (tape p mod N.of_nat (length xs))) xs d), S p).

(** [random.randint(a, b)] *)
Definition random_randint (a b : Z) : M Z := fun p =>
  ([], Ret (a + Z.of_N (tape p) mod (b - a + 1))%Z, S p).

(** [random.getrandbits(k)] *)
Definition random_getrandbits (k : N) : M Z := fun p =>
  ([], Ret (Z.of_N (tape p mod 2 ^ k)), S p).

(** *** Module level (lines 17-41) *)

(** [glob.glob(os.path.join(BIT_DIR, "*.bit"))], each path with the
    modification time [os.path.getmtime] reads for it. *)
Definition glob_bit_files (imports : list string)
  : M (list (string * float)) :=
  module_lookup imports "glob" ;;
  ret (map (fun e => (path_join BIT_DIR (fst e), snd e))
           (List.filter (fun e => matches_bit (fst e)) bit_dir)).

Definition startup (imports : list string) : M globals :=
  match config_file with
  | None =>
      sys_exit_msg
        "Error: Missing prog_config.txt. Please create it in the project root."
  | Some lines =>
      config <- parse_config lines ∅ ;;
      match config !! "TARGET_DEVICE" with
      | Some (String c s) =>
          found <- glob_bit_files imports ;;
          let bit_files := map fst (sorted_by_mtime found) in
          match bit_files with
          | [] =>
              sys_exit_msg
                "Error: No .bit file found in ./bit_file/ directory."
          | _ :: _ =>
              let bitstream := PyStr.last_item bit_files in
              ret {| TARGET_DEVICE := String c s;
                     BITSTREAM_FILE := bitstream;
                     OUTPUT_DIR := dirname bitstream |}
          end
      | _ => sys_exit_msg "Error: TARGET_DEVICE not defined in prog_config.txt."
      end
  end.

(** *** Utility functions (lines 49-72) *)

(** [progress_bar(duration, message)] for an integer duration of seconds
    that [time.sleep] accepts once divided by the width (not negative, at
    most [10^9] here); the one call of the script passes 25. *)
Definition progress_bar (duration : Z) (message : string) : M unit :=
  for_each (range (PROGRESS_BAR_WIDTH + 1)) (fun i =>
    percentage <-
      py_int (PyFloat.of_int i / PyFloat.of_int (Z.of_nat PROGRESS_BAR_WIDTH)
              * 100)%float ;;
    let filled_part := PyStr.repeat_str "█" (Z.to_nat i) in
    let empty_part :=
      PyStr.repeat_str " " (PROGRESS_BAR_WIDTH - Z.to_nat i) in
    let line :=
      String PyStr.CR message +:+ " [" +:+ filled_part +:+ empty_part
      +:+ "] " +:+ PyStr.str_int percentage +:+ "%" in
    write line ;;
    sleep (PyFloat.of_int duration
           / PyFloat.of_int (Z.of_nat PROGRESS_BAR_WIDTH))%float) ;;
  write PyStr.nl.

Definition simulate_xilinx_command (command success_msg error_msg : string)
  : M bool :=
  delay <- random_uniform 0.5 1.5 ;;
  sleep delay ;;
  ok <- random_choice true [true; false] ;;
  if ok then
    print ("[SIM] " +:+ command) ;;
    print ("[SUCCESS] " +:+ success_msg) ;;
    ret true
  else
    print ("[SIM] " +:+ command) ;;
    print ("[ERROR] " +:+ error_msg) ;;
    ret false.

(** *** Programming logic (lines 77-136) *)

(** The simulated tool invocations of the five steps, in the order of
    their call sites: command, success message, error message. *)
Definition step_commands (g : globals) : list (string * string * string) :=
  [ ("xbflash --device " +:+ TARGET_DEVICE g +:+ " --init",
     "Device initialized successfully.",
     "Initialization failed. Check JTAG connection.");
    ("xbtutil --validate --bitstream " +:+ BITSTREAM_FILE g,
     "Bitstream integrity check passed.",
     "Validation failed. Check bitstream syntax.");
    ("xbflash --device " +:+ TARGET_DEVICE g +:+ " --init",
     "Device initialized successfully.",
     "Initialization failed. Check JTAG connection.");
    ("xbflash --program --bitstream " +:+ BITSTREAM_FILE g +:+ " --device "
       +:+ TARGET_DEVICE g,
     "Programming command sent to hardware.",
     "Programming failed. Verify device ID.");
    ("xbtutil --verify --bitstream " +:+ BITSTREAM_FILE g,
     "Verification successful. Device configured.",
     "Verification failed. Re-run programming.") ].

Definition banner : string :=
  "==========================================================".

Definition program_device (g : globals) : M unit :=
  print banner ;;
  print "  Alveo U50 Bitstream Programming (Xilinx Tools)" ;;
  print banner ;;
  print (PyStr.nl +:+ "[STEP 1/5] Verifying XRT environment...") ;;
  ok1 <- simulate_xilinx_command
           ("xbflash --device " +:+ TARGET_DEVICE g +:+ " --init")
           "Device initialized successfully."
           "Initialization failed. Check JTAG connection." ;;
  (if negb ok1 then sys_exit 1%Z else ret tt) ;;
  sleep 2 ;;
  print "[STEP 2/5] Verifying build output directory '{OUTPUT_DIR}'..." ;;
  (if negb bitstream_exists then
     print ("[ERROR] Bitstream '" +:+ BITSTREAM_FILE g
            +:+ "' not found. Generate with Vivado first.") ;;
     sys_exit 1%Z
   else ret tt) ;;
  ok2 <- simulate_xilinx_command
           ("xbtutil --validate --bitstream " +:+ BITSTREAM_FILE g)
           "Bitstream integrity check passed."
           "Validation failed. Check bitstream syntax." ;;
  (if negb ok2 then sys_exit 1%Z else ret tt) ;;
  sleep 1 ;;
  print (PyStr.nl +:+ "[STEP 3/5] Initializing device with xbflash...") ;;
  ok3 <- simulate_xilinx_command
           ("xbflash --device " +:+ TARGET_DEVICE g +:+ " --init")
           "Device initialized successfully."
           "Initialization failed. Check JTAG connection." ;;
  (if negb ok3 then sys_exit 1%Z else ret tt) ;;
  sleep 2 ;;
  print (PyStr.nl +:+ "[STEP 4/5] Programming bitstream to Alveo U50...") ;;
  ok4 <- simulate_xilinx_command
           ("xbflash --program --bitstream " +:+ BITSTREAM_FILE g
            +:+ " --device " +:+ TARGET_DEVICE g)
           "Programming command sent to hardware."
           "Programming failed. Verify device ID." ;;
  (if negb ok4 then sys_exit 1%Z else ret tt) ;;
  progress_bar PROGRAM_DURATION "Transferring bitstream via xbflash..." ;;
  sleep 1 ;;
  print (PyStr.nl +:+ "[STEP 5/5] Verifying programming with xbtutil...") ;;
  ok5 <- simulate_xilinx_command
           ("xbtutil --verify --bitstream " +:+ BITSTREAM_FILE g)
           "Verification successful. Device configured."
           "Verification failed. Re-run programming." ;;
  if ok5 then
    print (PyStr.nl +:+ banner) ;;
    print "  Programming Completed Successfully." ;;
    print banner
  else
    print "[ERROR] Programming verification failed." ;;
    sys_exit 1%Z.

(** *** Device identity and screens (lines 138-184) *)

Definition clear_screen : M unit :=
  os_system (if String.eqb os_name "nt" then "cls" else "clear").

(** [subprocess.run(["xbutil", "examine"], ..., check=True).stdout] *)
Definition run_xbutil_examine : M string :=
  match xbutil with
  | Completed stdout => ret stdout
  | Failed e => raise e
  end.

(** Truth value of [next(..., None)]: [None] and the empty string are
    false. *)
Definition truthy (l : option string) : bool :=
  match l with
  | Some (String _ _) => true
  | _ => false
  end.

(** [l.split(":")[-1].strip() if l else fallback] *)
Definition field_or (l : option string) (fallback : string) : string :=
  match l with
  | Some line =>
      if truthy l then PyStr.strip (PyStr.last_item (PyStr.split ":" line))
      else fallback
  | None => fallback
  end.

Definition fallback_info : DeviceInfo :=
  {| device := "xilinx_u50_gen3x16_xdma_201920_3";
     firmware := "alveo_u50_top.bit";
     connection := "JTAG-over-PCIe";
     serial := "21340D8XYZ123" |}.

Definition get_device_info : M DeviceInfo :=
  try_except
    (stdout <- run_xbutil_examine ;;
     let lines := PyStr.splitlines stdout in
     let dev_line := List.find (PyStr.contains "Device") lines in
     let sn_line := List.find (PyStr.contains "S/N") lines in
     ret {| device := field_or dev_line "xilinx_u50_gen3x16_xdma_201920_3";
            firmware := "alveo_u50_top.bit";
            connection := "JTAG-over-PCIe";
            serial := field_or sn_line "21340D8XYZ123" |})
    (ret fallback_info).

Definition print_header (devinfo : DeviceInfo) : M unit :=
  print "=========================================================" ;;
  print "==        Alveo U50 Live Diagnostics Interface         ==" ;;
  print "=========================================================" ;;
  print ("Target Device: " +:+ device devinfo) ;;
  print ("Firmware:      " +:+ firmware devinfo) ;;
  print ("Connection:    " +:+ connection devinfo) ;;
  print ("Serial No.:    " +:+ serial devinfo) ;;
  print PyStr.nl.

(** The menu of [main_menu] up to and with the prompt of its [input]. *)
Definition main_menu_screen : M unit :=
  print "Select a diagnostic command:" ;;
  print "  [1] Check HBM (High Bandwidth Memory) Status" ;;
  print "  [2] Run PCIe Link Self-Test" ;;
  print "  [3] Read On-Chip Temperature Sensors" ;;
  print "  [4] Send test data to processing kernel" ;;
  print "  [q] Quit" ;;
  write ">> ".

(** *** Diagnostic operations (lines 187-249) *)

(** The locals of [check_hbm_status]. *)
Record hbm_locals : Type := {
  raw_status : Z;
  reg_dump : list string;
  calibrated : bool
}.

Definition hbm_read : M hbm_locals :=
  raw <- random_choice 0%Z [0x0001; 0x0000]%Z ;;
  ret {| raw_status := raw;
         reg_dump :=
           map (fun i => PyStr.hex (Z.land (Z.shiftl raw i) 0xFFFF))
               (range 4);
         calibrated := negb (Z.land raw 0x1 =? 0)%Z |}.

Definition check_hbm_status : M unit :=
  print (PyStr.nl +:+ "[CMD] Querying HBM Controller (AXI Addr: 0x10000)...") ;;
  sleep 0.8 ;;
  v <- hbm_read ;;
  print ("[AXI-RD] Register dump: " +:+ PyStr.str_list (reg_dump v)) ;;
  print ("[RECV] HBM Status Register: 0x" +:+ PyStr.format_0X 4 (raw_status v)
         +:+ " (" +:+ (if calibrated v then "Calibrated, OK" else "Idle")
         +:+ ")") ;;
  print (if calibrated v then "[INFO] HBM Memory appears to be stable."
         else "[WARN] HBM not initialized!").

(** [bytes(b)] of a [bytearray]: an immutable copy, the same sequence of
    byte values. *)
Definition bytes (b : list Z) : list Z := b.

Definition run_pcie_test : M unit :=
  print (PyStr.nl +:+ "[CMD] Initiating PCIe Gen3 x16 loopback test...") ;;
  sleep 0.5 ;;
  payload <- collect 256 (random_getrandbits 8) ;;
  let checksum_tx := Z.land (sum payload) 0xFFFF in
  print "[INFO] Sending 1MB test payload..." ;;
  for_each (range 11) (fun i =>
    write (String PyStr.CR "[INFO] Progress: " +:+ PyStr.str_int (i * 10)
           +:+ "%...") ;;
    sleep 0.2) ;;
  let payload_rx := bytes payload in
  let checksum_rx := Z.land (sum payload_rx) 0xFFFF in
  print (PyStr.nl +:+ "[INFO] Payload received, verifying...") ;;
  sleep 0.5 ;;
  if (checksum_tx =? checksum_rx)%Z then
    print ("[RECV] PCIe Link Test: PASS (Integrity OK, checksum=0x"
           +:+ PyStr.format_0X 4 checksum_rx +:+ ")")
  else
    print "[FAIL] Data mismatch detected in loopback test.".

(** The locals of [read_temp]. *)
Record temp_locals : Type := {
  adc_fpga : Z;
  adc_hbm : Z;
  temp_fpga : float;
  temp_hbm : float
}.

(** Lines 230-231: the Celsius values of two ADC codes. *)
Definition temp_of_adc (adc_fpga adc_hbm : Z) : temp_locals :=
  {| adc_fpga := adc_fpga;
     adc_hbm := adc_hbm;
     temp_fpga := (62.5 + PyFloat.of_int (adc_fpga - 0x3E80) * 0.01)%float;
     temp_hbm := (58.2 + PyFloat.of_int (adc_hbm - 0x3B60) * 0.01)%float |}.

Definition temp_read : M temp_locals :=
  jitter_fpga <- random_randint (-16) 16 ;;
  jitter_hbm <- random_randint (-8) 8 ;;
  ret (temp_of_adc (0x3E80 + jitter_fpga) (0x3B60 + jitter_hbm)).

Definition read_temp : M unit :=
  print (PyStr.nl +:+ "[CMD] Reading thermal sensor array...") ;;
  sleep 0.6 ;;
  v <- temp_read ;;
  print ("[AXI-RD] FPGA ADC raw = 0x" +:+ PyStr.format_X (adc_fpga v)) ;;
  print ("[AXI-RD] HBM  ADC raw = 0x" +:+ PyStr.format_X (adc_hbm v)) ;;
  print ("[RECV] FPGA Die Temperature: " +:+ PyFloat.format_2f (temp_fpga v)
         +:+ " C") ;;
  print ("[RECV] HBM Stack Temperature: " +:+ PyFloat.format_2f (temp_hbm v)
         +:+ " C").

Definition send_data : M unit :=
  print (PyStr.nl
         +:+ "[CMD] Allocating buffer and sending 4KB data to Kernel_0...") ;;
  sleep 0.5 ;;
  buf <- collect 4096 (random_getrandbits 8) ;;
  let checksum := Z.land (sum buf) 0xFFFFFFFF in
  sleep 1.0 ;;
  jitter <- random_randint (-10) 10 ;;
  let latency := (150 + jitter)%Z in
  print ("[INFO] Data transfer complete. Buffer checksum=0x"
         +:+ PyStr.format_0X 8 checksum) ;;
  print ("[RECV] Kernel_0 returned status OK. Latency: "
         +:+ PyStr.str_int latency +:+ " us.").

(** *** The menu loop (lines 250-268) *)

(** The test of the [if]/[elif] chain of lines 258-266 a line passes. *)
Definition parse_choice (choice : string) : MenuCommand :=
  if String.eqb choice "1" then CmdHbm
  else if String.eqb choice "2" then CmdPcie
  else if String.eqb choice "3" then CmdTemp
  else if String.eqb choice "4" then CmdSend
  else if String.eqb (PyStr.lower choice) "q" then CmdQuit
  else CmdInvalid.

(** The branch of the chain; [false] is its [break]. *)
Definition run_command (c : MenuCommand) : M bool :=
  match c with
  | CmdHbm => check_hbm_status ;; ret true
  | CmdPcie => run_pcie_test ;; ret true
  | CmdTemp => read_temp ;; ret true
  | CmdSend => send_data ;; ret true
  | CmdQuit =>
      print (PyStr.nl +:+ "Disconnecting from device...") ;;
      sleep 1 ;;
      ret false
  | CmdInvalid => print (PyStr.nl +:+ "Invalid option.") ;; ret true
  end.

Definition ack_prompt : string :=
  PyStr.nl +:+ "Press [Enter] to return to the menu...".

(** [while True: ...] over the lines standard input still holds. [input]
    writes its prompt and raises [EOFError] when no line is left. *)
Fixpoint menu_loop (devinfo : DeviceInfo) (stdin : list string) : M unit :=
  clear_screen ;;
  print_header devinfo ;;
  main_menu_screen ;;
  match stdin with
  | [] => raise EOFError
  | choice :: stdin1 =>
      continue <- run_command (parse_choice choice) ;;
      if continue then
        write ack_prompt ;;
        match stdin1 with
        | [] => raise EOFError
        | _ :: stdin2 => menu_loop devinfo stdin2
        end
      else ret tt
  end.

(** The [__main__] block. *)
Definition main (g : globals) (stdin : list string) : M unit :=
  os_system "clear" ;;
  program_device g ;;
  devinfo <- get_device_info ;;
  menu_loop devinfo stdin.

(** The whole script, for the modules [imports] binds. *)
Definition script (imports : list string) (stdin : list string) : M unit :=
  g <- startup imports ;;
  main g stdin.

(** *** Observations on a run *)

(** The result of [random.choice([True, False])] read at cursor [p]. *)
Definition coin (p : nat) : bool :=
  nth (N.to_nat (tape p mod 2)) [true; false] true.

(** What one redraw of the menu writes: lines 255-257 up to the prompt. *)
Definition screen_events (devinfo : DeviceInfo) : list event :=
  fst (fst ((clear_screen ;; print_header devinfo ;; main_menu_screen) 0)).

(** The commands of the simulated tool invocations, in order. *)
Fixpoint sim_commands (ev : list event) : list string :=
  match ev with
  | [] => []
  | Out s :: ev' =>
      if PyStr.startswith "[SIM] " s
      then String.substring 6 (String.length s - 7) s :: sim_commands ev'
      else sim_commands ev'
  | _ :: ev' => sim_commands ev'
  end.

(** The status keywords of the diagnostic operations. *)
Definition status_keywords : list string :=
  ["PASS"; "FAIL"; "OK"; "Calibrated"; "Idle"].

Definition has_keyword (line : string) : bool :=
  existsb (fun k => PyStr.contains k line) status_keywords.

(** The operation of a menu command, for the four that have one. *)
Definition operation (c : MenuCommand) : option (M unit) :=
  match c with
  | CmdHbm => Some check_hbm_status
  | CmdPcie => Some run_pcie_test
  | CmdTemp => Some read_temp
  | CmdSend => Some send_data
  | _ => None
  end.

End World.

(** ** Checks used in the statements *)

(** The texts written to standard output, one per write. *)
Fixpoint writes (ev : list event) : list string :=
  match ev with
  | [] => []
  | Out s :: ev' => s :: writes ev'
  | _ :: ev' => writes ev'
  end.

(** The result of [random.uniform(a, b)] read at cursor [p]. *)
Definition uniform_at (tape : nat -> N) (a b : float) (p : nat) : float :=
  (a + (b - a)
       * (PyFloat.of_int (Z.of_N (tape p mod 2 ^ 53)) / 9007199254740992))%float.

(** What the progress bar of step 4 does: 51 redraws, each followed by a
    sleep, and the final newline. *)
Definition transfer_events : list event :=
  fst (fst (progress_bar PROGRAM_DURATION
              "Transferring bitstream via xbflash..." 0)).

(** The globals of the example scenario, for a bitstream [design.bit]. *)
Definition example_globals : globals :=
  {| TARGET_DEVICE := "xilinx_u50_gen3x16_xdma_201920_3";
     BITSTREAM_FILE := "./bit_file/design.bit";
     OUTPUT_DIR := "./bit_file" |}.

(** The command and the error message of a step. *)
Definition step_command (s : string * string * string) : string :=
  fst (fst s).
Definition step_error (s : string * string * string) : string := snd s.

(** Whether a computation came to its end, rather than exiting or raising. *)
Definition completes {A} (o : outcome A) : bool :=
  match o with
  | Ret _ => true
  | _ => false
  end.

(** The file system of the example scenario: the configuration names the
    target device and one bitstream is in the directory. *)
Definition example_config : option (list string) :=
  Some ["TARGET_DEVICE=xilinx_u50_gen3x16_xdma_201920_3" +:+ PyStr.nl].
Definition example_bit_dir : list (string * float) :=
  [("design.bit", 1700000000%float)].

(** A tape of zeros: every coin is a success, every jitter the lowest. *)
Definition zeros : nat -> N := fun _ => 0%N.

(** A tape of zeros but for a one in cell [n]: the coin read there fails. *)
Definition one_at (n : nat) : nat -> N :=
  fun i => if Nat.eqb i n then 1%N else 0%N.

(** A tape that starts with two given cells. *)
Definition two_cells (z1 z2 : Z) : nat -> N := fun i =>
  match i with
  | O => Z.to_N z1
  | S _ => Z.to_N z2
  end.

(** The four comparisons on one sensor, in binary64 arithmetic: the value
    against the bounds as Python computes them from the nominal value and
    the largest jitter, and against the bounds as decimal literals. *)
Definition within (nominal : float) (jmax : Z) (lo hi : float) (t : float)
  : bool :=
  (nominal - PyFloat.of_int jmax * 0.01 <=? t)%float
  && (t <=? nominal + PyFloat.of_int jmax * 0.01)%float
  && (lo <=? t)%float && (t <=? hi)%float.

(** Unfolds the sequencing and the primitive effects of a computation,
    leaving the random draws and the text in place. *)
Ltac run :=
  cbv beta iota delta
    [bind ret raise emit print write sleep os_system sys_exit sys_exit_msg
     negb fst snd];
  cbn [app].

(** ** Checks used in the further properties *)

(** The number of simulated commands [program_device] runs: the steps up to
    and with the first failing coin, step 2 stopping before its command when
    the bitstream is missing. *)
Definition steps_run (tape : nat -> N) (bitstream_exists : bool) (p : nat)
  : nat :=
  if negb (coin tape (S p)) then 1
  else if negb bitstream_exists then 1
  else if negb (coin tape (S (S (S p)))) then 2
  else if negb (coin tape (S (S (S (S (S p)))))) then 3
  else if negb (coin tape (S (S (S (S (S (S (S p)))))))) then 4
  else 5.

(** Whether the five coins read from cursor [p] all succeed and the
    bitstream is there. *)
Definition all_succeed (tape : nat -> N) (bitstream_exists : bool) (p : nat)
  : bool :=
  coin tape (S p) && bitstream_exists && coin tape (S (S (S p)))
  && coin tape (S (S (S (S (S p)))))
  && coin tape (S (S (S (S (S (S (S p)))))))
  && coin tape (S (S (S (S (S (S (S (S (S p))))))))).

(** The line of line 132. *)
Definition completed_line : string :=
  "  Programming Completed Successfully." +:+ PyStr.nl.

(** The percentage the progress bar shows at redraw [i]: twice [i], but 57
    at redraw 29, where [(29 / 50) * 100] is just below 58 in binary64. *)
Definition bar_percent (i : Z) : Z := if (i =? 29)%Z then 57%Z else (2 * i)%Z.

(** The text of redraw [i] of the progress bar. *)
Definition bar_line (message : string) (i : Z) : string :=
  String PyStr.CR message +:+ " [" +:+ PyStr.repeat_str "█" (Z.to_nat i)
  +:+ PyStr.repeat_str " " (PROGRESS_BAR_WIDTH - Z.to_nat i) +:+ "] "
  +:+ PyStr.str_int (bar_percent i) +:+ "%".

(** A number of hundredths written with two decimals. *)
Definition hundredths_text (n : Z) : string :=
  PyStr.str_int (n / 100) +:+ "." +:+ PyStr.zfill 2 (PyStr.str_int (n mod 100)).

(** What the quit branch does (lines 263-264). *)
Definition farewell : list event :=
  [Out ((PyStr.nl +:+ "Disconnecting from device...") +:+ PyStr.nl); Sleep 1].


(** The message of line 30 as it reaches stderr. *)
Definition no_target_message : string :=
  "Error: TARGET_DEVICE not defined in prog_config.txt." +:+ PyStr.nl.

(** * Properties *)

(** ** Strings *)

Lemma lower_char_q (c : ascii) :
  PyStr.lower_char c = "q"%char <-> c = "q"%char \/ c = "Q"%char.
Proof.
  destruct c as [[] [] [] [] [] [] [] []]; vm_compute;
    split; intros H; try discriminate H;
    solve [ auto | destruct H as [H | H]; discriminate H ].
Qed.

Lemma lower_q (s : string) :
  PyStr.lower s = "q" <-> s = "q" \/ s = "Q".
Proof.
  destruct s as [|c [|d s']]; simpl.
  - split; [discriminate | intros [H | H]; discriminate H].
  - split.
    + intros H. injection H as H. apply lower_char_q in H.
      destruct H as [-> | ->]; auto.
    + intros [H | H]; injection H as ->; reflexivity.
  - split; [discriminate | intros [H | H]; discriminate H].
Qed.

Lemma startswith_app (p a b : string) :
  PyStr.startswith p a = true -> PyStr.startswith p (a +:+ b) = true.
Proof.
  revert a. induction p as [|c p IH]; intros a H; [reflexivity|].
  destruct a as [|d a]; [discriminate|]. simpl in *.
  apply andb_true_iff in H as [-> H]. simpl. auto.
Qed.

Lemma contains_app (p a b : string) :
  PyStr.contains p a = true -> PyStr.contains p (a +:+ b) = true.
Proof.
  induction a as [|d a IH]; intros H.
  - destruct p; [destruct b; reflexivity | discriminate].
  - simpl in H. apply orb_true_iff in H as [H | H].
    + change (PyStr.contains p (String d a +:+ b))
        with (PyStr.startswith p (String d a +:+ b)
              || PyStr.contains p (a +:+ b)).
      rewrite (startswith_app _ _ _ H). reflexivity.
    + change (PyStr.contains p (String d a +:+ b))
        with (PyStr.startswith p (String d a +:+ b)
              || PyStr.contains p (a +:+ b)).
      rewrite (IH H). apply orb_true_r.
Qed.

Lemma split_nonempty (sep : ascii) (s : string) : PyStr.split sep s <> [].
Proof.
  destruct s as [|c s]; simpl; [discriminate|].
  destruct (Ascii.eqb c sep); [discriminate|].
  destruct (PyStr.split sep s); discriminate.
Qed.

(** Splitting distributes over a separator. *)
Lemma split_app (sep : ascii) (a b : string) :
  PyStr.split sep (a +:+ String sep b) = PyStr.split sep a ++ PyStr.split sep b.
Proof.
  induction a as [|c a IH]; simpl.
  - rewrite Ascii.eqb_refl. reflexivity.
  - destruct (Ascii.eqb c sep); [rewrite IH; reflexivity|].
    rewrite IH. pose proof (split_nonempty sep a) as Hne.
    destruct (PyStr.split sep a); [congruence | reflexivity].
Qed.

(** A first piece without separator stays in front of the first line. *)
Lemma split_prefix (sep : ascii) (lit rest : string) :
  PyStr.contains (String sep "") lit = false ->
  exists l ls, PyStr.split sep (lit +:+ rest) = (lit +:+ l) :: ls.
Proof.
  induction lit as [|c lit IH]; intros H.
  - change (EmptyString +:+ rest) with rest.
    pose proof (split_nonempty sep rest) as Hne.
    destruct (PyStr.split sep rest) as [|l ls]; [congruence|].
    exists l, ls. reflexivity.
  - simpl in H. apply orb_false_iff in H as [Hc H].
    destruct (Ascii.eqb_spec sep c) as [->|Hne]; [discriminate Hc|].
    destruct (IH H) as (l & ls & E). simpl.
    destruct (Ascii.eqb_spec c sep) as [->|_]; [congruence|].
    rewrite E. exists l, ls. reflexivity.
Qed.

(** ** Ranges *)

Lemma range_forallb (f : Z -> bool) (n : nat) :
  forallb f (range n) = true ->
  forall z, (0 <= z < Z.of_nat n)%Z -> f z = true.
Proof.
  intros H z Hz. rewrite List.forallb_forall in H. apply H.
  unfold range. replace z with (Z.of_nat (Z.to_nat z)) by lia.
  apply List.in_map, List.in_seq. lia.
Qed.

(** ** The menu chain *)

(** The chain of tests, as a case distinction on the line. *)
Lemma parse_choice_cases (choice : string) :
  (choice = "1" /\ parse_choice choice = CmdHbm) \/
  (choice = "2" /\ parse_choice choice = CmdPcie) \/
  (choice = "3" /\ parse_choice choice = CmdTemp) \/
  (choice = "4" /\ parse_choice choice = CmdSend) \/
  (~ In choice ["1"; "2"; "3"; "4"] /\ PyStr.lower choice = "q"
   /\ parse_choice choice = CmdQuit) \/
  (~ In choice ["1"; "2"; "3"; "4"] /\ PyStr.lower choice <> "q"
   /\ parse_choice choice = CmdInvalid).
Proof.
  unfold parse_choice.
  destruct (String.eqb_spec choice "1") as [->|H1]; [auto|].
  destruct (String.eqb_spec choice "2") as [->|H2]; [auto|].
  destruct (String.eqb_spec choice "3") as [->|H3]; [auto|].
  destruct (String.eqb_spec choice "4") as [->|H4]; [auto 6|].
  assert (~ In choice ["1"; "2"; "3"; "4"]) as Hn
    by (intros [E|[E|[E|[E|[]]]]]; congruence).
  destruct (String.eqb_spec (PyStr.lower choice) "q") as [Hl|Hl]; auto 10.
Qed.

(** The tests of the chain read as a classification of the line: a command
    of its own for each of "1", "2", "3" and "4", the quit command for the
    lines whose lower case is "q", which are "q" and "Q", and the invalid
    command for every other line, such as "1 " or "q!". *)
Theorem parse_choice_whole_line (choice : string) :
  (parse_choice choice = CmdHbm <-> choice = "1") /\
  (parse_choice choice = CmdPcie <-> choice = "2") /\
  (parse_choice choice = CmdTemp <-> choice = "3") /\
  (parse_choice choice = CmdSend <-> choice = "4") /\
  (parse_choice choice = CmdQuit <-> PyStr.lower choice = "q") /\
  (PyStr.lower choice = "q" <-> choice = "q" \/ choice = "Q") /\
  (parse_choice choice = CmdInvalid <->
   ~ In choice ["1"; "2"; "3"; "4"; "q"; "Q"]) /\
  parse_choice "1 " = CmdInvalid /\
  parse_choice "q!" = CmdInvalid /\
  parse_choice "11" = CmdInvalid /\
  parse_choice " q" = CmdInvalid.
Proof.
  assert (Hq := lower_q choice).
  assert (forall s, In s ["1"; "2"; "3"; "4"] -> PyStr.lower s <> "q") as Hd
    by (intros s [<-|[<-|[<-|[<-|[]]]]]; discriminate).
  destruct (parse_choice_cases choice)
    as [[E P]|[[E P]|[[E P]|[[E P]|[(N & L & P)|(N & L & P)]]]]];
    rewrite P; try subst choice;
    repeat split; try reflexivity; try discriminate; try tauto;
    try (intros H; exfalso; first [ discriminate H | revert H; apply Hd; simpl; tauto ]);
    try (intros H; exfalso; apply H; simpl; tauto);
    try (intros H; exfalso; apply N; subst choice; simpl; tauto).
  - intros H. exfalso. apply H. apply Hq in L.
    destruct L as [-> | ->]; simpl; tauto.
  - intros _ [E|[E|[E|[E|[E|[E|[]]]]]]];
      try (apply N; simpl; auto; fail); apply L, Hq; auto.
Qed.

(** ** Random draws *)

Lemma random_choice_two {A} (tape : nat -> N) (d a b : A) (p : nat) :
  random_choice tape d [a; b] p =
  ([], Ret (if (tape p mod 2 =? 0)%N then a else b), S p).
Proof.
  unfold random_choice. change (N.of_nat (length [a; b])) with 2%N.
  assert (tape p mod 2 < 2)%N as Hlt by (apply N.mod_upper_bound; discriminate).
  destruct (tape p mod 2)%N as [|[q|q|]]; try reflexivity; lia.
Qed.

Lemma coin_spec (tape : nat -> N) (p : nat) :
  coin tape p = (tape p mod 2 =? 0)%N.
Proof.
  unfold coin.
  assert (tape p mod 2 < 2)%N as Hlt by (apply N.mod_upper_bound; discriminate).
  destruct (tape p mod 2)%N as [|[q|q|]]; try reflexivity; lia.
Qed.

Lemma randint_range (tape : nat -> N) (a b : Z) (p : nat) :
  (a <= b)%Z ->
  exists j, random_randint tape a b p = ([], Ret j, S p) /\ (a <= j <= b)%Z.
Proof.
  intros Hab. eexists. split; [reflexivity|].
  pose proof (Z.mod_pos_bound (Z.of_N (tape p)) (b - a + 1)). lia.
Qed.

(** ** HBM status *)

(** C6: the raw status word of [check_hbm_status] is 0x0001 or 0x0000 and
    both occur; the calibration flag is the low bit of the word; the register
    dump is the word shifted left by 0, 1, 2 and 3 and cut to 16 bits, in
    this order; and these are the values the operation prints. *)
Theorem hbm_status_word :
  (forall tape p, exists v,
      hbm_read tape p = ([], Ret v, S p) /\
      (raw_status v = 0x0001 \/ raw_status v = 0x0000)%Z /\
      calibrated v = Z.testbit (raw_status v) 0 /\
      reg_dump v =
        map (fun i => PyStr.hex ((raw_status v * 2 ^ i) mod 2 ^ 16))
            [0; 1; 2; 3]%Z /\
      check_hbm_status tape p =
        ([Out (PyStr.nl
               +:+ "[CMD] Querying HBM Controller (AXI Addr: 0x10000)..."
               +:+ PyStr.nl);
          Sleep 0.8;
          Out ("[AXI-RD] Register dump: " +:+ PyStr.str_list (reg_dump v)
               +:+ PyStr.nl);
          Out ("[RECV] HBM Status Register: 0x"
               +:+ PyStr.format_0X 4 (raw_status v) +:+ " ("
               +:+ (if calibrated v then "Calibrated, OK" else "Idle")
               +:+ ")" +:+ PyStr.nl);
          Out ((if calibrated v then "[INFO] HBM Memory appears to be stable."
                else "[WARN] HBM not initialized!") +:+ PyStr.nl)],
         Ret tt, S p)) /\
  (exists tape v, hbm_read tape 0 = ([], Ret v, 1) /\ raw_status v = 0x0001%Z) /\
  (exists tape v, hbm_read tape 0 = ([], Ret v, 1) /\ raw_status v = 0x0000%Z).
Proof.
  split; [|split].
  - intros tape p. unfold check_hbm_status, hbm_read. run.
    rewrite random_choice_two. run.
    destruct (tape p mod 2 =? 0)%N; eexists;
      (split; [reflexivity|]); simpl raw_status;
      (split; [auto|]); repeat split; reflexivity.
  - exists (fun _ => 0%N). eexists. split; reflexivity.
  - exists (fun _ => 1%N). eexists. split; reflexivity.
Qed.

(** ** Temperatures *)

Lemma fpga_jitter_bounds (j : Z) :
  (-16 <= j <= 16)%Z ->
  within 62.5 16 62.34 62.66 (62.5 + PyFloat.of_int j * 0.01)%float = true.
Proof.
  intros Hj.
  assert (forallb (fun z => within 62.5 16 62.34 62.66
                    (62.5 + PyFloat.of_int (z - 16) * 0.01)%float)
                  (range 33) = true) as H by (vm_compute; reflexivity).
  replace j with (j + 16 - 16)%Z by lia.
  apply (range_forallb _ _ H). simpl. lia.
Qed.

Lemma hbm_jitter_bounds (j : Z) :
  (-8 <= j <= 8)%Z ->
  within 58.2 8 58.12 58.28 (58.2 + PyFloat.of_int j * 0.01)%float = true.
Proof.
  intros Hj.
  assert (forallb (fun z => within 58.2 8 58.12 58.28
                    (58.2 + PyFloat.of_int (z - 8) * 0.01)%float)
                  (range 17) = true) as H by (vm_compute; reflexivity).
  replace j with (j + 8 - 8)%Z by lia.
  apply (range_forallb _ _ H). simpl. lia.
Qed.

(** C5: whatever the random draws, the ADC codes of [read_temp] stay within
    16 and 8 of their nominal codes, and in binary64 arithmetic the FPGA
    temperature lies between 62.5 - 16*0.01 and 62.5 + 16*0.01, that is
    between 62.34 and 62.66, and the HBM temperature between 58.2 - 8*0.01
    and 58.2 + 8*0.01, that is between 58.12 and 58.28; these are the values
    the operation prints. *)
Theorem temperature_within_bounds (tape : nat -> N) (p : nat) :
  exists v,
    temp_read tape p = ([], Ret v, S (S p)) /\
    (0x3E80 - 16 <= adc_fpga v <= 0x3E80 + 16)%Z /\
    (0x3B60 - 8 <= adc_hbm v <= 0x3B60 + 8)%Z /\
    (62.5 - 16 * 0.01 <=? temp_fpga v)%float = true /\
    (temp_fpga v <=? 62.5 + 16 * 0.01)%float = true /\
    (62.34 <=? temp_fpga v)%float = true /\
    (temp_fpga v <=? 62.66)%float = true /\
    (58.2 - 8 * 0.01 <=? temp_hbm v)%float = true /\
    (temp_hbm v <=? 58.2 + 8 * 0.01)%float = true /\
    (58.12 <=? temp_hbm v)%float = true /\
    (temp_hbm v <=? 58.28)%float = true /\
    read_temp tape p =
      ([Out (PyStr.nl +:+ "[CMD] Reading thermal sensor array..."
             +:+ PyStr.nl);
        Sleep 0.6;
        Out ("[AXI-RD] FPGA ADC raw = 0x" +:+ PyStr.format_X (adc_fpga v)
             +:+ PyStr.nl);
        Out ("[AXI-RD] HBM  ADC raw = 0x" +:+ PyStr.format_X (adc_hbm v)
             +:+ PyStr.nl);
        Out (("[RECV] FPGA Die Temperature: "
              +:+ PyFloat.format_2f (temp_fpga v) +:+ " C") +:+ PyStr.nl);
        Out (("[RECV] HBM Stack Temperature: "
              +:+ PyFloat.format_2f (temp_hbm v) +:+ " C") +:+ PyStr.nl)],
       Ret tt, S (S p)).
Proof.
  destruct (randint_range tape (-16) 16 p) as (j1 & E1 & H1); [lia|].
  destruct (randint_range tape (-8) 8 (S p)) as (j2 & E2 & H2); [lia|].
  exists (temp_of_adc (0x3E80 + j1) (0x3B60 + j2)).
  pose proof (fpga_jitter_bounds j1 H1) as F.
  pose proof (hbm_jitter_bounds j2 H2) as G.
  unfold within in F, G.
  apply andb_true_iff in F as [F F4]. apply andb_true_iff in F as [F F3].
  apply andb_true_iff in F as [F1 F2].
  apply andb_true_iff in G as [G G4]. apply andb_true_iff in G as [G G3].
  apply andb_true_iff in G as [G1 G2].
  unfold read_temp, temp_read. run. rewrite E1. run. rewrite E2. run.
  unfold temp_of_adc; simpl adc_fpga; simpl adc_hbm;
    simpl temp_fpga; simpl temp_hbm.
  replace (0x3E80 + j1 - 0x3E80)%Z with j1 by lia.
  replace (0x3B60 + j2 - 0x3B60)%Z with j2 by lia.
  repeat split; try lia; assumption.
Qed.

(** The largest HBM temperature is the binary64 number nearest to 58.28,
    [8202180821348516 * 2^-47], which as an exact number lies above 58.28 by
    less than one unit in the last place; the comparisons above are the
    ones Python makes. *)
Remark temp_hbm_largest_exact :
  Prim2SF (temp_hbm (temp_of_adc 0x3E80 (0x3B60 + 8)))
  = S754_finite false 8202180821348516 (-47) /\
  Prim2SF 58.28%float = S754_finite false 8202180821348516 (-47) /\
  (5828 * 2 ^ 47 < 8202180821348516 * 100 < 5828 * 2 ^ 47 + 100)%Z.
Proof. repeat split; vm_compute; reflexivity. Qed.

(** ** Lines of the output *)

Lemma append_assoc (a b c : string) : (a +:+ b) +:+ c = a +:+ (b +:+ c).
Proof.
  induction a as [|x a IH]; [reflexivity|].
  change (String x ((a +:+ b) +:+ c) = String x (a +:+ (b +:+ c))).
  now f_equal.
Qed.

Lemma has_keyword_app (a b : string) :
  has_keyword a = true -> has_keyword (a +:+ b) = true.
Proof.
  unfold has_keyword. rewrite !List.existsb_exists.
  intros (k & Hk & Hc). exists k. split; [exact Hk | now apply contains_app].
Qed.

(** A line that starts with a text holding a keyword is a line with a
    keyword, whatever is printed before it and after the text. *)
Lemma keyword_line (pre lit rest : string) :
  PyStr.contains PyStr.nl lit = false ->
  has_keyword lit = true ->
  existsb has_keyword (PyStr.lines (pre +:+ String PyStr.LF (lit +:+ rest)))
  = true.
Proof.
  intros Hnl Hk. unfold PyStr.lines.
  rewrite split_app, List.existsb_app.
  destruct (split_prefix PyStr.LF lit rest Hnl) as (l & ls & ->).
  simpl existsb. rewrite (has_keyword_app _ l Hk). apply orb_true_r.
Qed.

(** ** PCIe loopback *)

Lemma collect_getrandbits (tape : nat -> N) (n p : nat) :
  exists payload,
    collect n (random_getrandbits tape 8) p = ([], Ret payload, n + p) /\
    length payload = n /\
    Forall (fun b => 0 <= b < 256)%Z payload.
Proof.
  revert p. induction n as [|n IH]; intros p.
  - exists []. repeat split. constructor.
  - destruct (IH (S p)) as (payload & E & Hlen & Hall).
    exists (Z.of_N (tape p mod 2 ^ 8) :: payload). split; [|split].
    + simpl collect. unfold random_getrandbits at 1. run. rewrite E. run.
      f_equal. lia.
    + simpl. now rewrite Hlen.
    + constructor; [|exact Hall].
      change (2 ^ 8)%N with 256%N.
      assert (tape p mod 256 < 256)%N as Hb
        by (apply N.mod_upper_bound; discriminate).
      revert Hb. generalize (tape p mod 256)%N. intros b Hb. lia.
Qed.

(** What a run of [run_pcie_test] is. *)
Lemma run_pcie_test_run (tape : nat -> N) (p : nat) :
  exists payload ev,
    collect 256 (random_getrandbits tape 8) p = ([], Ret payload, 256 + p) /\
    length payload = 256 /\
    Forall (fun b => 0 <= b < 256)%Z payload /\
    Z.land (sum payload) 0xFFFF = Z.land (sum (bytes payload)) 0xFFFF /\
    run_pcie_test tape p = (ev, Ret tt, 256 + p) /\
    List.last ev (Sleep 0) =
      Out (("[RECV] PCIe Link Test: PASS (Integrity OK, checksum=0x"
            +:+ PyStr.format_0X 4 (Z.land (sum (bytes payload)) 0xFFFF)
            +:+ ")")
           +:+ PyStr.nl) /\
    ~ In (Out ("[FAIL] Data mismatch detected in loopback test." +:+ PyStr.nl))
         ev /\
    existsb (PyStr.startswith "[FAIL]") (writes ev) = false /\
    existsb has_keyword (output_lines ev) = true.
Proof.
  destruct (collect_getrandbits tape 256 p) as (payload & E & Hlen & Hall).
  exists payload. eexists.
  split; [exact E|]. split; [exact Hlen|]. split; [exact Hall|].
  split; [reflexivity|].
  unfold run_pcie_test. run. rewrite E. run.
  unfold bytes. rewrite Z.eqb_refl.
  set (loop := for_each (range 11) _ _). vm_compute in loop. subst loop. run.
  split; [reflexivity|]. split; [reflexivity|]. split; [|split].
  - intros H. simpl in H.
    repeat (destruct H as [H | H]; [discriminate H|]). exact H.
  - reflexivity.
  - unfold output_lines.
    match goal with
    | |- existsb _ (PyStr.lines ?t) = true =>
        change t with
          ((PyStr.nl +:+ "[CMD] Initiating PCIe Gen3 x16 loopback test..."
            +:+ PyStr.nl +:+ "[INFO] Sending 1MB test payload..."
            +:+ PyStr.nl +:+ PyStr.concat
                  (map (fun i => String PyStr.CR "[INFO] Progress: "
                                 +:+ PyStr.str_int (i * 10) +:+ "%...")
                       (range 11))
            +:+ PyStr.nl +:+ "[INFO] Payload received, verifying...")
           +:+ String PyStr.LF
                 ("[RECV] PCIe Link Test: PASS"
                  +:+ (((" (Integrity OK, checksum=0x"
                         +:+ (PyStr.format_0X 4 (Z.land (sum payload) 0xFFFF)
                              +:+ ")"))
                        +:+ PyStr.nl) +:+ "")))
    end.
    apply keyword_line; reflexivity.
Qed.

(** C3: for every payload [run_pcie_test] draws (256 values below 256), the
    transmit and receive checksums are equal, the operation ends with the
    PASS line carrying that checksum, and the line of the data-mismatch
    branch is never written. *)
Theorem pcie_loopback_passes (tape : nat -> N) (p : nat) :
  exists payload ev,
    collect 256 (random_getrandbits tape 8) p = ([], Ret payload, 256 + p) /\
    length payload = 256 /\
    Forall (fun b => 0 <= b < 256)%Z payload /\
    Z.land (sum payload) 0xFFFF = Z.land (sum (bytes payload)) 0xFFFF /\
    run_pcie_test tape p = (ev, Ret tt, 256 + p) /\
    List.last ev (Sleep 0) =
      Out (("[RECV] PCIe Link Test: PASS (Integrity OK, checksum=0x"
            +:+ PyStr.format_0X 4 (Z.land (sum (bytes payload)) 0xFFFF)
            +:+ ")")
           +:+ PyStr.nl) /\
    ~ In (Out ("[FAIL] Data mismatch detected in loopback test." +:+ PyStr.nl))
         ev /\
    existsb (PyStr.startswith "[FAIL]") (writes ev) = false /\
    existsb has_keyword (output_lines ev) = true.
Proof. exact (run_pcie_test_run tape p). Qed.

(** ** The four operations *)

Lemma text_before_line (a b h c : string) :
  a +:+ ((b +:+ h) +:+ PyStr.nl) +:+ c
  = (a +:+ b +:+ h) +:+ String PyStr.LF c.
Proof. rewrite !append_assoc. reflexivity. Qed.

(** What a run of [send_data] is. *)
Lemma send_data_run (tape : nat -> N) (p : nat) :
  exists buf jitter ev,
    length buf = 4096 /\
    (-10 <= jitter <= 10)%Z /\
    send_data tape p = (ev, Ret tt, S (4096 + p)) /\
    writes ev =
      [(PyStr.nl
        +:+ "[CMD] Allocating buffer and sending 4KB data to Kernel_0...")
       +:+ PyStr.nl;
       ("[INFO] Data transfer complete. Buffer checksum=0x"
        +:+ PyStr.format_0X 8 (Z.land (sum buf) 0xFFFFFFFF)) +:+ PyStr.nl;
       ("[RECV] Kernel_0 returned status OK. Latency: "
        +:+ PyStr.str_int (150 + jitter) +:+ " us.") +:+ PyStr.nl] /\
    existsb has_keyword (output_lines ev) = true.
Proof.
  destruct (collect_getrandbits tape 4096 p) as (buf & E & Hlen & _).
  destruct (randint_range tape (-10) 10 (4096 + p)) as (j & Ej & Hj); [lia|].
  exists buf, j. eexists. split; [exact Hlen|]. split; [exact Hj|].
  unfold send_data. run. rewrite E. run. rewrite Ej. run.
  split; [reflexivity|]. split; [reflexivity|].
  unfold output_lines. cbn [stdout_text].
  rewrite text_before_line.
  match goal with
  | |- existsb _ (PyStr.lines (?pre +:+ String PyStr.LF ?t)) = true =>
      change t with
        ("[RECV] Kernel_0 returned status OK. Latency: "
         +:+ (((PyStr.str_int (150 + j) +:+ " us.") +:+ PyStr.nl) +:+ ""))
  end.
  apply keyword_line; reflexivity.
Qed.

(** [read_temp] reads the tape through its two draws only. *)
Lemma read_temp_two_cells (tape : nat -> N) (p : nat) :
  exists z1 z2,
    (0 <= z1 < 33)%Z /\ (0 <= z2 < 17)%Z /\
    read_temp tape p
    = (fst (fst (read_temp (two_cells z1 z2) 0)), Ret tt, S (S p)).
Proof.
  exists (Z.of_N (tape p) mod 33)%Z, (Z.of_N (tape (S p)) mod 17)%Z.
  assert (0 <= Z.of_N (tape p) mod 33 < 33)%Z as H1
    by (apply Z.mod_pos_bound; lia).
  assert (0 <= Z.of_N (tape (S p)) mod 17 < 17)%Z as H2
    by (apply Z.mod_pos_bound; lia).
  split; [exact H1|]. split; [exact H2|].
  unfold read_temp, temp_read, random_randint, two_cells. run.
  change (16 - -16 + 1)%Z with 33%Z. change (8 - -8 + 1)%Z with 17%Z.
  rewrite !Z2N.id by lia. rewrite !Z.mod_mod by lia. reflexivity.
Qed.

Lemma read_temp_no_keyword (z1 z2 : Z) :
  (0 <= z1 < 33)%Z -> (0 <= z2 < 17)%Z ->
  existsb has_keyword
    (output_lines (fst (fst (read_temp (two_cells z1 z2) 0)))) = false.
Proof.
  intros H1 H2.
  assert (forallb (fun a => forallb (fun b =>
            negb (existsb has_keyword
                    (output_lines (fst (fst (read_temp (two_cells a b) 0))))))
            (range 17)) (range 33) = true) as H by (vm_compute; reflexivity).
  pose proof (range_forallb _ _ H z1 H1) as H'. cbv beta in H'.
  pose proof (range_forallb _ _ H' z2 H2) as H''. cbv beta in H''.
  now apply negb_true_iff in H''.
Qed.

(** C4, as the code has it: each of the four operations runs to its end
    without raising or exiting and writes to standard output;
    [check_hbm_status], [run_pcie_test] and [send_data] always write a line
    with one of the keywords PASS, FAIL, OK, Calibrated, Idle; [read_temp]
    never does: its lines carry the two ADC codes and the two
    temperatures only. *)
Theorem operations_status_lines (tape : nat -> N) (p : nat) :
  (exists ev p', check_hbm_status tape p = (ev, Ret tt, p') /\
                 existsb has_keyword (output_lines ev) = true) /\
  (exists ev p', run_pcie_test tape p = (ev, Ret tt, p') /\
                 existsb has_keyword (output_lines ev) = true) /\
  (exists ev p', send_data tape p = (ev, Ret tt, p') /\
                 existsb has_keyword (output_lines ev) = true) /\
  (exists ev p', read_temp tape p = (ev, Ret tt, p') /\
                 length (writes ev) = 5 /\
                 existsb has_keyword (output_lines ev) = false).
Proof.
  split; [|split; [|split]].
  - unfold check_hbm_status, hbm_read. run. rewrite random_choice_two. run.
    destruct (tape p mod 2 =? 0)%N; eexists; eexists;
      (split; [reflexivity | vm_compute; reflexivity]).
  - destruct (run_pcie_test_run tape p) as (payload & ev & H).
    exists ev, (256 + p). tauto.
  - destruct (send_data_run tape p) as (buf & j & ev & H).
    exists ev, (S (4096 + p)). tauto.
  - destruct (read_temp_two_cells tape p) as (z1 & z2 & H1 & H2 & E).
    eexists; eexists. split; [exact E|]. split.
    + reflexivity.
    + now apply read_temp_no_keyword.
Qed.

(** ** The startup sequencer *)

Lemma length_append (a b : string) :
  String.length (a +:+ b) = String.length a + String.length b.
Proof. induction a as [|x a IH]; simpl; [reflexivity | now rewrite IH]. Qed.

Lemma substring_prefix (c r : string) :
  String.substring 0 (String.length c) (c +:+ r) = c.
Proof.
  induction c as [|x c IH]; simpl.
  - destruct r; reflexivity.
  - now rewrite IH.
Qed.

Lemma sim_commands_sim (c : string) (ev : list event) :
  sim_commands (Out (("[SIM] " +:+ c) +:+ PyStr.nl) :: ev)
  = c :: sim_commands ev.
Proof.
  rewrite append_assoc.
  change (sim_commands (Out ("[SIM] " +:+ c +:+ PyStr.nl) :: ev))
    with (String.substring 6
            (String.length ("[SIM] " +:+ c +:+ PyStr.nl) - 7)
            ("[SIM] " +:+ c +:+ PyStr.nl) :: sim_commands ev).
  f_equal. rewrite !length_append.
  replace (String.length "[SIM] " + (String.length c + String.length PyStr.nl)
           - 7) with (String.length c) by (simpl; lia).
  change (String.substring 6 (String.length c) ("[SIM] " +:+ c +:+ PyStr.nl))
    with (String.substring 0 (String.length c) (c +:+ PyStr.nl)).
  apply substring_prefix.
Qed.

Lemma sim_commands_other (s : string) (ev : list event) :
  PyStr.startswith "[SIM] " s = false ->
  sim_commands (Out s :: ev) = sim_commands ev.
Proof. intros H. cbn [sim_commands]. now rewrite H. Qed.

Lemma sim_commands_app (a b : list event) :
  sim_commands (a ++ b) = sim_commands a ++ sim_commands b.
Proof.
  induction a as [|[s| | |] a IH]; cbn [sim_commands app]; try exact IH;
    [reflexivity|].
  destruct (PyStr.startswith "[SIM] " s); cbn [app]; now rewrite IH.
Qed.

Lemma writes_app (a b : list event) : writes (a ++ b) = writes a ++ writes b.
Proof.
  induction a as [|[s| | |] a IH]; simpl; try exact IH; [reflexivity|].
  now rewrite IH.
Qed.

(** What a run of [simulate_xilinx_command] is: one sleep, the command, and
    the success or the error message, as the coin decides. *)
Lemma simulate_run (tape : nat -> N) (c s e : string) (p : nat) :
  simulate_xilinx_command tape c s e p =
  ([Sleep (uniform_at tape 0.5 1.5 p);
    Out (("[SIM] " +:+ c) +:+ PyStr.nl);
    Out ((if coin tape (S p) then "[SUCCESS] " +:+ s else "[ERROR] " +:+ e)
         +:+ PyStr.nl)],
   Ret (coin tape (S p)), S (S p)).
Proof.
  unfold simulate_xilinx_command, random_uniform, random_random. run.
  rewrite random_choice_two, coin_spec. run.
  destruct (tape (S p) mod 2 =? 0)%N; reflexivity.
Qed.

Lemma progress_bar_transfer (p : nat) :
  progress_bar PROGRAM_DURATION "Transferring bitstream via xbflash..." p
  = (transfer_events, Ret tt, p).
Proof. vm_compute. reflexivity. Qed.

Lemma transfer_events_no_sim : sim_commands transfer_events = [].
Proof. vm_compute. reflexivity. Qed.

Lemma sim_commands_sleep (t : float) (ev : list event) :
  sim_commands (Sleep t :: ev) = sim_commands ev.
Proof. reflexivity. Qed.

Lemma sim_commands_nil : sim_commands [] = [].
Proof. reflexivity. Qed.

(** Reads the simulated commands off an explicit trace. *)
Ltac read_sims :=
  repeat first
    [ rewrite sim_commands_sim
    | rewrite sim_commands_other by reflexivity
    | rewrite sim_commands_sleep
    | rewrite sim_commands_app
    | rewrite transfer_events_no_sim
    | rewrite sim_commands_nil ].

(** Finds a text among the writes of an explicit trace. *)
Ltac pick_write :=
  cbn [writes]; rewrite ?writes_app; cbn [writes];
  repeat first [ left; reflexivity | right | apply List.in_or_app ].

(** C1: in [program_device], when the coins of the first [k] steps are
    successes and the coin of the next step is a failure (the bitstream
    being there when step 2 looks for it), the run ends in [sys.exit(1)]
    right after that step: the simulated commands that ran are the first
    [k + 1] of the five, each once and in order, no later random draw is
    made, the error message of the failed step is written, and the last
    line written is an error line. *)
Theorem program_device_stops_at_first_failure
  (tape : nat -> N) (bitstream_exists : bool) (g : globals) (p k : nat) :
  k < 5 ->
  (forall i, i < k -> coin tape (S (2 * i + p)) = true) ->
  coin tape (S (2 * k + p)) = false ->
  (k = 0 \/ bitstream_exists = true) ->
  exists ev,
    program_device tape bitstream_exists g p = (ev, Exit 1%Z, 2 * S k + p) /\
    sim_commands ev = map step_command (firstn (S k) (step_commands g)) /\
    In (("[ERROR] " +:+ step_error (nth k (step_commands g) ("", "", "")))
        +:+ PyStr.nl) (writes ev) /\
    PyStr.startswith "[ERROR] " (List.last (writes ev) "") = true /\
    exit_status (Exit 1%Z : outcome unit) <> 0%Z.
Proof.
  intros Hk Hall Hfail Hex.
  assert (0 < k -> coin tape (S p) = true) as H0
    by (intros H; exact (Hall 0 H)).
  assert (1 < k -> coin tape (S (S (S p))) = true) as H1
    by (intros H; exact (Hall 1 H)).
  assert (2 < k -> coin tape (S (S (S (S (S p))))) = true) as H2
    by (intros H; exact (Hall 2 H)).
  assert (3 < k -> coin tape (S (S (S (S (S (S (S p))))))) = true) as H3
    by (intros H; exact (Hall 3 H)).
  clear Hall.
  destruct k as [|[|[|[|[|k]]]]]; [| | | | |lia];
    cbn [Nat.mul Nat.add] in Hfail;
    try (destruct Hex as [Hex|Hex]; [discriminate Hex|];
         subst bitstream_exists);
    try (rewrite Nat.add_0_r in Hfail);
    unfold program_device; run;
    repeat (first [rewrite simulate_run | rewrite progress_bar_transfer];
            rewrite ?H0, ?H1, ?H2, ?H3, ?Hfail by lia; run);
    (eexists; split; [reflexivity|]; split; [|split; [|split]]).
  all: try (read_sims; reflexivity).
  all: try (pick_write; fail).
  all: discriminate.
Qed.

(** C2, as the code has it: when the bitstream is missing at the time
    [program_device] runs, step 1 still runs its simulated command first.
    The run always ends in [sys.exit(1)] after exactly that one simulated
    command, none of the later ones being run: with the not-found error
    when step 1 succeeds, with the error of step 1 when it fails. *)
Theorem missing_bitstream_stops_in_step_two
  (tape : nat -> N) (g : globals) (p : nat) :
  exists ev,
    program_device tape false g p = (ev, Exit 1%Z, S (S p)) /\
    sim_commands ev = ["xbflash --device " +:+ TARGET_DEVICE g +:+ " --init"] /\
    List.last (writes ev) "" =
      (if coin tape (S p)
       then "[ERROR] Bitstream '" +:+ BITSTREAM_FILE g
            +:+ "' not found. Generate with Vivado first."
       else "[ERROR] " +:+ "Initialization failed. Check JTAG connection.")
      +:+ PyStr.nl.
Proof.
  unfold program_device. run. rewrite simulate_run.
  destruct (coin tape (S p)); run;
    (eexists; split; [reflexivity|]; split;
     [read_sims; reflexivity | reflexivity]).
Qed.

(** ** Device identity *)

Lemma find_contains_nonempty (k : string) (lines : list string) (l : string) :
  PyStr.contains k EmptyString = false ->
  List.find (PyStr.contains k) lines = Some l ->
  truthy (Some l) = true.
Proof.
  intros Hk H. apply List.find_some in H as [_ H].
  destruct l; [congruence | reflexivity].
Qed.

(** C9, as the code has it: [get_device_info] never raises and reads no
    random draw; its firmware and connection fields are always the fixed
    constants; when the query raises it returns the fixed fallback record;
    when the query succeeds, the device and the serial number are each taken
    from the first line that holds "Device" or "S/N", and each falls back to
    its own default when there is no such line, whatever the other does. *)
Theorem get_device_info_fields (xbutil : run_result) (p : nat) :
  exists info,
    get_device_info xbutil p = ([], Ret info, p) /\
    firmware info = "alveo_u50_top.bit" /\
    connection info = "JTAG-over-PCIe" /\
    match xbutil with
    | Failed _ => info = fallback_info
    | Completed stdout =>
        let lines := PyStr.splitlines stdout in
        device info =
          match List.find (PyStr.contains "Device") lines with
          | Some l => PyStr.strip (PyStr.last_item (PyStr.split ":" l))
          | None => "xilinx_u50_gen3x16_xdma_201920_3"
          end /\
        serial info =
          match List.find (PyStr.contains "S/N") lines with
          | Some l => PyStr.strip (PyStr.last_item (PyStr.split ":" l))
          | None => "21340D8XYZ123"
          end
    end.
Proof.
  unfold get_device_info, try_except, run_xbutil_examine.
  destruct xbutil as [stdout | e]; run.
  - eexists. split; [reflexivity|]. split; [reflexivity|].
    split; [reflexivity|]. cbn [device serial]. unfold field_or. split.
    + destruct (List.find (PyStr.contains "Device") (PyStr.splitlines stdout))
        as [l|] eqn:E; [|reflexivity].
      now rewrite (find_contains_nonempty "Device" _ _ eq_refl E).
    + destruct (List.find (PyStr.contains "S/N") (PyStr.splitlines stdout))
        as [l|] eqn:E; [|reflexivity].
      now rewrite (find_contains_nonempty "S/N" _ _ eq_refl E).
  - exists fallback_info. repeat split.
Qed.

(** ** Module level *)

Lemma contains_char_cons (c a : ascii) (s : string) :
  PyStr.contains (String c "") (String a s)
  = Ascii.eqb c a || PyStr.contains (String c "") s.
Proof. cbn [PyStr.contains PyStr.startswith]. now rewrite andb_true_r. Qed.

Lemma split1_two (c : ascii) (s : string) :
  PyStr.contains (String c "") s = true ->
  exists k v, PyStr.split1 c s = [k; v].
Proof.
  induction s as [|a s IH]; intros H; [discriminate H|].
  rewrite contains_char_cons in H. cbn [PyStr.split1].
  destruct (Ascii.eqb_spec a c) as [->|Hne]; [eauto|].
  destruct (Ascii.eqb_spec c a) as [->|_]; [congruence|].
  destruct (IH H) as (k & v & ->). eauto.
Qed.

Lemma contains_char_lstrip (c : ascii) (s : string) :
  PyStr.isspace c = false ->
  PyStr.contains (String c "") s = true ->
  PyStr.contains (String c "") (PyStr.lstrip s) = true.
Proof.
  intros Hc. induction s as [|a s IH]; intros H; [discriminate H|].
  cbn [PyStr.lstrip]. destruct (PyStr.isspace a) eqn:Ha; [|exact H].
  rewrite contains_char_cons in H.
  destruct (Ascii.eqb_spec c a) as [->|_]; [congruence|]. now apply IH.
Qed.

Lemma contains_char_rstrip (c : ascii) (s : string) :
  PyStr.isspace c = false ->
  PyStr.contains (String c "") s = true ->
  PyStr.contains (String c "") (PyStr.rstrip s) = true.
Proof.
  intros Hc. induction s as [|a s IH]; intros H; [discriminate H|].
  rewrite contains_char_cons in H. cbn [PyStr.rstrip].
  destruct (Ascii.eqb_spec c a) as [<-|Hne].
  - rewrite Hc. destruct (PyStr.rstrip s);
      rewrite contains_char_cons, Ascii.eqb_refl; reflexivity.
  - specialize (IH H). destruct (PyStr.rstrip s) as [|b r]; [discriminate IH|].
    rewrite contains_char_cons, IH. apply orb_true_r.
Qed.

(** The loop of lines 23-26 never raises: a line with an equals sign splits
    in two. It writes nothing and draws nothing. *)
Lemma parse_config_pure (lines : list string) (config : gmap string string)
  (p : nat) :
  exists config', parse_config lines config p = ([], Ret config', p).
Proof.
  revert config. induction lines as [|line lines IH]; intros config.
  - eexists. reflexivity.
  - cbn [parse_config]. unfold parse_line.
    destruct (PyStr.contains "=" line) eqn:Heq.
    + destruct (split1_two "=" (PyStr.strip line)) as (k & v & ->).
      { apply contains_char_rstrip, contains_char_lstrip;
          [reflexivity | reflexivity | exact Heq]. }
      run. destruct (IH (<[PyStr.strip k := PyStr.strip v]> config))
        as (c' & ->). eexists. reflexivity.
    + run. destruct (IH config) as (c' & ->). eexists. reflexivity.
Qed.

(** C8 fails on the code: with the modules the script imports, the scan of
    line 35 names [glob], which nothing binds. Whatever the configuration
    file and the directory hold, the module level never comes to its end, so
    no bitstream is ever selected, and the whole script writes nothing to
    standard output and ends with status 1. In the example scenario the
    outcome is [NameError]; with [glob] imported the same code selects the
    bitstream. *)
Theorem startup_never_selects
  (tape : nat -> N) (os_name : string) (config_file : option (list string))
  (bit_dir : list (string * float)) (bitstream_exists : bool)
  (xbutil : run_result) (stdin : list string) (p : nat) :
  completes (snd (fst (startup config_file bit_dir module_imports p))) = false
  /\
  (let r := script tape os_name config_file bit_dir bitstream_exists xbutil
              module_imports stdin p in
   writes (fst (fst r)) = [] /\ exit_status (snd (fst r)) = 1%Z) /\
  startup example_config example_bit_dir module_imports 0
  = ([], Raise (NameError "glob"), 0) /\
  startup example_config example_bit_dir ("glob" :: module_imports) 0
  = ([], Ret example_globals, 0).
Proof.
  assert (exists ev o,
            startup config_file bit_dir module_imports p = (ev, o, p) /\
            completes o = false /\ writes ev = [] /\ exit_status o = 1%Z)
    as (ev & o & E & Hc & Hw & Hx).
  { unfold startup. destruct config_file as [lines|].
    - destruct (parse_config_pure lines ∅ p) as (config & E).
      run. rewrite E. run.
      destruct (config !! "TARGET_DEVICE") as [[|c s]|];
        do 2 eexists; (split; [reflexivity|]); repeat split.
    - do 2 eexists. split; [reflexivity|]. repeat split. }
  split; [now rewrite E|]. split.
  - unfold script. run. rewrite E. destruct o; [discriminate Hc| |];
      cbn [fst snd]; split; assumption.
  - split; vm_compute; reflexivity.
Qed.

(** ** The menu loop *)

Lemma parse_choice_invalid (choice : string) :
  ~ In choice ["1"; "2"; "3"; "4"; "q"; "Q"] ->
  parse_choice choice = CmdInvalid.
Proof.
  intros H.
  destruct (parse_choice_cases choice)
    as [[E _]|[[E _]|[[E _]|[[E _]|[(_ & L & _)|(_ & _ & P)]]]]];
    try exact P; exfalso; apply H; try (subst choice; simpl; tauto).
  apply lower_q in L. destruct L as [-> | ->]; simpl; tauto.
Qed.

(** C7: in the menu loop, a line that is none of "1", "2", "3", "4", "q", "Q"
    makes the loop write the error message and the prompt for Enter, read the
    acknowledgement, and go on as the loop does on the rest of the input:
    with the same device record and the same random cursor, no operation
    having run. The lines "q" and "Q" both end the loop normally after the
    farewell, without reading further, which is exit status 0. *)
Theorem invalid_choice_redraws
  (tape : nat -> N) (os_name : string) (devinfo : DeviceInfo)
  (choice ack : string) (rest : list string) (p : nat) :
  ~ In choice ["1"; "2"; "3"; "4"; "q"; "Q"] ->
  menu_loop tape os_name devinfo (choice :: ack :: rest) p =
    (let '(ev, o, p') := menu_loop tape os_name devinfo rest p in
     (screen_events os_name devinfo
      ++ Out ((PyStr.nl +:+ "Invalid option.") +:+ PyStr.nl)
         :: Out ack_prompt :: ev,
      o, p')) /\
  menu_loop tape os_name devinfo ("q" :: rest) p =
    (screen_events os_name devinfo
     ++ [Out ((PyStr.nl +:+ "Disconnecting from device...") +:+ PyStr.nl);
         Sleep 1],
     Ret tt, p) /\
  menu_loop tape os_name devinfo ("Q" :: rest) p =
    (screen_events os_name devinfo
     ++ [Out ((PyStr.nl +:+ "Disconnecting from device...") +:+ PyStr.nl);
         Sleep 1],
     Ret tt, p) /\
  exit_status (Ret tt) = 0%Z.
Proof.
  intros H. apply parse_choice_invalid in H.
  unfold screen_events. split; [|split; [|split]].
  - cbn [menu_loop]. rewrite H.
    unfold clear_screen, print_header, main_menu_screen, run_command. run.
    destruct (menu_loop tape os_name devinfo rest p) as [[ev o] p'].
    destruct o; reflexivity.
  - reflexivity.
  - reflexivity.
  - reflexivity.
Qed.

(** ** Concrete runs *)

(** C1 at a concrete run: step 1 succeeds and step 2 fails. *)
Lemma program_device_stops_at_first_failure_witness :
  1 < 5 /\
  (forall i, i < 1 -> coin (one_at 3) (S (2 * i + 0)) = true) /\
  coin (one_at 3) (S (2 * 1 + 0)) = false /\
  exists ev,
    program_device (one_at 3) true example_globals 0
    = (ev, Exit 1%Z, 2 * 2 + 0) /\
    sim_commands ev
    = map step_command (firstn 2 (step_commands example_globals)) /\
    In (("[ERROR] "
         +:+ step_error (nth 1 (step_commands example_globals) ("", "", "")))
        +:+ PyStr.nl) (writes ev) /\
    PyStr.startswith "[ERROR] " (List.last (writes ev) "") = true /\
    exit_status (Exit 1%Z : outcome unit) <> 0%Z.
Proof.
  split; [lia|]. split; [intros [|i] Hi; [reflexivity | lia]|].
  split; [reflexivity|].
  apply (program_device_stops_at_first_failure
           (one_at 3) true example_globals 0 1).
  - lia.
  - intros [|i] Hi; [reflexivity | lia].
  - reflexivity.
  - right. reflexivity.
Defined.

(** C2 fails as stated: with the bitstream missing and a first coin that
    succeeds, the simulated command of step 1 runs and its output is written
    before the not-found error ends the process. *)
Lemma missing_bitstream_runs_step_one :
  exists ev,
    program_device zeros false example_globals 0 = (ev, Exit 1%Z, 2) /\
    sim_commands ev
    = ["xbflash --device xilinx_u50_gen3x16_xdma_201920_3 --init"] /\
    sim_commands ev <> [] /\
    output_lines ev
    = ["==========================================================";
       "  Alveo U50 Bitstream Programming (Xilinx Tools)";
       "=========================================================="; "";
       "[STEP 1/5] Verifying XRT environment...";
       "[SIM] xbflash --device xilinx_u50_gen3x16_xdma_201920_3 --init";
       "[SUCCESS] Device initialized successfully.";
       "[STEP 2/5] Verifying build output directory '{OUTPUT_DIR}'...";
       "[ERROR] Bitstream './bit_file/design.bit' not found. Generate with Vivado first.";
       ""].
Proof.
  eexists. split; [vm_compute; reflexivity|].
  split; [vm_compute; reflexivity|].
  split; [discriminate | vm_compute; reflexivity].
Qed.

(** C4 fails as stated: [read_temp], the operation of command 3, writes no
    line with a status keyword. *)
Lemma read_temp_writes_no_keyword :
  operation zeros CmdTemp = Some (read_temp zeros) /\
  output_lines (fst (fst (read_temp zeros 0)))
  = [""; "[CMD] Reading thermal sensor array...";
     "[AXI-RD] FPGA ADC raw = 0x3E70"; "[AXI-RD] HBM  ADC raw = 0x3B58";
     "[RECV] FPGA Die Temperature: 62.34 C";
     "[RECV] HBM Stack Temperature: 58.12 C"; ""] /\
  existsb has_keyword (output_lines (fst (fst (read_temp zeros 0)))) = false.
Proof. repeat split; vm_compute; reflexivity. Qed.

(** C9 fails as stated: when the output of the query has a device line but
    no serial line, the record is not the fallback record: the device is the
    one read and only the serial number is the default. *)
Lemma device_line_without_serial :
  get_device_info (Completed "Device : xilinx_u280_xdma_201920_3") 0
  = ([], Ret {| device := "xilinx_u280_xdma_201920_3";
                firmware := "alveo_u50_top.bit";
                connection := "JTAG-over-PCIe";
                serial := "21340D8XYZ123" |}, 0) /\
  get_device_info (Completed "Device : xilinx_u280_xdma_201920_3") 0
  <> ([], Ret fallback_info, 0).
Proof. split; [vm_compute; reflexivity | discriminate]. Qed.

(** C7 at a concrete session: an unknown line, Enter, then "q". *)
Lemma invalid_choice_redraws_witness :
  ~ In "x" ["1"; "2"; "3"; "4"; "q"; "Q"] /\
  menu_loop zeros "posix" fallback_info ["x"; ""; "q"] 0
  = (screen_events "posix" fallback_info
     ++ Out ((PyStr.nl +:+ "Invalid option.") +:+ PyStr.nl)
        :: Out ack_prompt
        :: screen_events "posix" fallback_info
           ++ [Out ((PyStr.nl +:+ "Disconnecting from device...")
                    +:+ PyStr.nl);
               Sleep 1],
     Ret tt, 0).
Proof.
  assert (~ In "x" ["1"; "2"; "3"; "4"; "q"; "Q"]) as H
    by (intros [E|[E|[E|[E|[E|[E|[]]]]]]]; discriminate E).
  split; [exact H|].
  destruct (invalid_choice_redraws zeros "posix" fallback_info "x" "" ["q"] 0 H)
    as (E & _).
  rewrite E. reflexivity.
Defined.

(** * Further properties *)

(** ** The startup sequencer, every run *)

Lemma transfer_events_writes :
  existsb (String.eqb completed_line) (writes transfer_events) = false.
Proof. vm_compute. reflexivity. Qed.

(** Closes the case of a run that ended. *)
Ltac finish_run :=
  eexists; split; [reflexivity|]; split;
  [ read_sims; reflexivity
  | cbn [writes]; rewrite ?writes_app, ?List.existsb_app,
      ?transfer_events_writes; reflexivity ].

(** What any run of [program_device] is, by the coins and the bitstream. *)
Lemma program_device_run_cases
  (tape : nat -> N) (bitstream_exists : bool) (g : globals) (p : nat) :
  exists ev,
    program_device tape bitstream_exists g p
    = (ev,
       if all_succeed tape bitstream_exists p then Ret tt else Exit 1%Z,
       2 * steps_run tape bitstream_exists p + p) /\
    sim_commands ev
    = map step_command
        (firstn (steps_run tape bitstream_exists p) (step_commands g)) /\
    existsb (String.eqb completed_line) (writes ev)
    = all_succeed tape bitstream_exists p.
Proof.
  unfold steps_run, all_succeed, program_device. run. rewrite simulate_run.
  destruct (coin tape (S p)); run; [|finish_run].
  destruct bitstream_exists; run; [|finish_run].
  rewrite simulate_run.
  destruct (coin tape (S (S (S p)))); run; [|finish_run].
  rewrite simulate_run.
  destruct (coin tape (S (S (S (S (S p)))))); run; [|finish_run].
  rewrite simulate_run.
  destruct (coin tape (S (S (S (S (S (S (S p)))))))); run; [|finish_run].
  rewrite progress_bar_transfer. run. rewrite simulate_run.
  destruct (coin tape (S (S (S (S (S (S (S (S (S p)))))))))); run;
    finish_run.
Qed.

(** X1: every run of [program_device] ends normally or in [sys.exit(1)], and
    normally exactly when the bitstream is there and the five coins succeed;
    it reads two random draws per simulated command; the commands that ran
    are a prefix of the five, in order; and the completion line is written
    exactly when the run ends normally. *)
Theorem program_device_every_run
  (tape : nat -> N) (bitstream_exists : bool) (g : globals) (p : nat) :
  exists ev,
    program_device tape bitstream_exists g p
    = (ev,
       if all_succeed tape bitstream_exists p then Ret tt else Exit 1%Z,
       2 * steps_run tape bitstream_exists p + p) /\
    sim_commands ev
    = map step_command
        (firstn (steps_run tape bitstream_exists p) (step_commands g)) /\
    existsb (String.eqb completed_line) (writes ev)
    = all_succeed tape bitstream_exists p.
Proof. exact (program_device_run_cases tape bitstream_exists g p). Qed.

(** ** The progress bar *)

(** X2: for every duration from 0 to [10^9] seconds and every message
    [progress_bar] never raises and reads no random draw; it redraws 51
    times, each redraw followed by a sleep of a fiftieth of the duration,
    and ends with a newline; redraw [i] shows [i] filled cells out of 50 and
    the percentage [2 * i], except that redraw 29 shows 57. *)
Theorem progress_bar_transcript (duration : Z) (message : string) (p : nat) :
  (0 <= duration <= 1000000000)%Z ->
  progress_bar duration message p
  = (flat_map (fun i => [Out (bar_line message i);
                         Sleep (PyFloat.of_int duration / 50)%float])
              (range 51)
     ++ [Out PyStr.nl],
     Ret tt, p).
Proof. intros _. vm_compute. reflexivity. Qed.

(** ** Turns of the menu loop *)

Lemma check_hbm_status_total (tape : nat -> N) (p : nat) :
  exists ev, check_hbm_status tape p = (ev, Ret tt, S p).
Proof.
  unfold check_hbm_status, hbm_read. run. rewrite random_choice_two. run.
  eexists. reflexivity.
Qed.

(** Every branch of the chain but the quit branch comes back to the loop. *)
Lemma run_command_continues (tape : nat -> N) (c : MenuCommand) (p : nat) :
  c <> CmdQuit ->
  exists ev p', run_command tape c p = (ev, Ret true, p') /\ p <= p'.
Proof.
  intros Hc. destruct c; try congruence; unfold run_command; run.
  - destruct (check_hbm_status_total tape p) as (ev & ->).
    do 2 eexists. split; [reflexivity | lia].
  - destruct (run_pcie_test_run tape p) as (payload & ev & _ & _ & _ & _ & -> & _).
    do 2 eexists. split; [reflexivity | lia].
  - destruct (read_temp_two_cells tape p) as (z1 & z2 & _ & _ & ->).
    do 2 eexists. split; [reflexivity | lia].
  - destruct (send_data_run tape p) as (buf & j & ev & _ & _ & -> & _).
    do 2 eexists. split; [reflexivity | lia].
  - do 2 eexists. split; [reflexivity | lia].
Qed.

Lemma parse_choice_quit (choice : string) :
  parse_choice choice = CmdQuit -> PyStr.lower choice = "q".
Proof.
  intros H.
  destruct (parse_choice_cases choice)
    as [[_ P]|[[_ P]|[[_ P]|[[_ P]|[(_ & L & _)|(_ & _ & P)]]]]];
    congruence.
Qed.

(** One turn of the loop on a line that does not quit. *)
Lemma menu_loop_step
  (tape : nat -> N) (os_name : string) (devinfo : DeviceInfo)
  (choice ack : string) (rest : list string) (p : nat) :
  PyStr.lower choice <> "q" ->
  exists ev1 p1,
    run_command tape (parse_choice choice) p = (ev1, Ret true, p1) /\
    p <= p1 /\
    menu_loop tape os_name devinfo (choice :: ack :: rest) p =
      (let '(ev, o, p') := menu_loop tape os_name devinfo rest p1 in
       (screen_events os_name devinfo ++ ev1 ++ Out ack_prompt :: ev, o, p')) /\
    menu_loop tape os_name devinfo [choice] p =
      (screen_events os_name devinfo ++ ev1 ++ [Out ack_prompt],
       Raise EOFError, p1).
Proof.
  intros Hq.
  destruct (run_command_continues tape (parse_choice choice) p)
    as (ev1 & p1 & E & Hp).
  { intros H. apply Hq. now apply parse_choice_quit. }
  exists ev1, p1. split; [exact E|]. split; [exact Hp|].
  unfold screen_events. split.
  - cbn [menu_loop]. unfold clear_screen, print_header, main_menu_screen. run.
    rewrite E. run.
    destruct (menu_loop tape os_name devinfo rest p1) as [[ev o] p'].
    rewrite <- ?app_assoc. destruct o; reflexivity.
  - cbn [menu_loop]. unfold clear_screen, print_header, main_menu_screen. run.
    rewrite E. run. rewrite <- ?app_assoc. reflexivity.
Qed.

(** X3: on a line whose lower case is not "q" the branch of the line runs to
    its end without raising or exiting, the loop writes the prompt for
    Enter, drops the next line unread as a command, and goes on with the
    rest of the input from the cursor the branch left; when no line is left
    for the acknowledgement the loop dies with [EOFError]. *)
Theorem menu_iteration
  (tape : nat -> N) (os_name : string) (devinfo : DeviceInfo)
  (choice ack : string) (rest : list string) (p : nat) :
  PyStr.lower choice <> "q" ->
  exists ev1 p1,
    run_command tape (parse_choice choice) p = (ev1, Ret true, p1) /\
    p <= p1 /\
    menu_loop tape os_name devinfo (choice :: ack :: rest) p =
      (let '(ev, o, p') := menu_loop tape os_name devinfo rest p1 in
       (screen_events os_name devinfo ++ ev1 ++ Out ack_prompt :: ev, o, p')) /\
    menu_loop tape os_name devinfo [choice] p =
      (screen_events os_name devinfo ++ ev1 ++ [Out ack_prompt],
       Raise EOFError, p1).
Proof. exact (menu_loop_step tape os_name devinfo choice ack rest p). Qed.

(** X4: when no line of the input has the lower case "q", the loop never
    ends normally: it consumes the input and dies with [EOFError], which is
    exit status 1. *)
Theorem menu_loop_without_quit
  (tape : nat -> N) (os_name : string) (devinfo : DeviceInfo)
  (stdin : list string) (p : nat) :
  Forall (fun line => PyStr.lower line <> "q") stdin ->
  exists ev p',
    menu_loop tape os_name devinfo stdin p = (ev, Raise EOFError, p') /\
    exit_status (Raise EOFError : outcome unit) = 1%Z /\
    p <= p'.
Proof.
  intros Hall.
  assert (forall n stdin p, length stdin <= n ->
            Forall (fun line => PyStr.lower line <> "q") stdin ->
            exists ev p',
              menu_loop tape os_name devinfo stdin p = (ev, Raise EOFError, p')
              /\ p <= p') as H.
  { clear. induction n as [|n IH]; intros stdin p Hlen Hall.
    - destruct stdin; [|simpl in Hlen; lia].
      do 2 eexists. split; [reflexivity | lia].
    - destruct stdin as [|choice [|ack rest]].
      + do 2 eexists. split; [reflexivity | lia].
      + inversion Hall as [|? ? Hq _]; subst.
        destruct (menu_loop_step tape os_name devinfo choice "" [] p Hq)
          as (ev1 & p1 & _ & Hp & _ & E).
        rewrite E. do 2 eexists. split; [reflexivity | exact Hp].
      + inversion Hall as [|? ? Hq Hall']; subst.
        inversion Hall' as [|? ? _ Hrest]; subst.
        destruct (menu_loop_step tape os_name devinfo choice ack rest p Hq)
          as (ev1 & p1 & _ & Hp & E & _).
        destruct (IH rest p1 ltac:(simpl in Hlen; lia) Hrest)
          as (ev & p' & Erest & Hp').
        rewrite E, Erest. do 2 eexists. split; [reflexivity | lia]. }
  destruct (H (length stdin) stdin p (le_n _) Hall) as (ev & p' & E & Hp).
  exists ev, p'. repeat split; assumption.
Qed.

(** ** Checksums *)

Lemma fold_add_bound (l : list Z) (acc : Z) :
  Forall (fun b => 0 <= b < 256)%Z l ->
  (acc <= fold_left Z.add l acc <= acc + 255 * Z.of_nat (length l))%Z.
Proof.
  revert acc. induction l as [|b l IH]; intros acc H.
  - simpl. lia.
  - inversion H as [|? ? Hb Hl]; subst. specialize (IH (acc + b)%Z Hl).
    cbn [fold_left length]. lia.
Qed.

Lemma sum_bytes_bound (l : list Z) :
  Forall (fun b => 0 <= b < 256)%Z l ->
  (0 <= sum l <= 255 * Z.of_nat (length l))%Z.
Proof. intros H. unfold sum. pose proof (fold_add_bound l 0 H). lia. Qed.

Lemma land_ones_small (x : Z) (n : Z) :
  (0 <= n)%Z -> (0 <= x < 2 ^ n)%Z -> Z.land x (Z.ones n) = x.
Proof.
  intros Hn Hx. rewrite Z.land_ones by exact Hn. now apply Z.mod_small.
Qed.

(** X6: the 256 bytes of the loopback payload sum to at most 0xFF00, so the
    16-bit mask of [run_pcie_test] never changes the sum: the checksum on
    the PASS line is the plain sum of the payload. *)
Theorem pcie_checksum_is_plain_sum (tape : nat -> N) (p : nat) :
  exists payload ev,
    collect 256 (random_getrandbits tape 8) p = ([], Ret payload, 256 + p) /\
    run_pcie_test tape p = (ev, Ret tt, 256 + p) /\
    (0 <= sum payload <= 0xFF00)%Z /\
    Z.land (sum payload) 0xFFFF = sum payload /\
    List.last ev (Sleep 0) =
      Out (("[RECV] PCIe Link Test: PASS (Integrity OK, checksum=0x"
            +:+ PyStr.format_0X 4 (sum payload) +:+ ")") +:+ PyStr.nl).
Proof.
  destruct (run_pcie_test_run tape p)
    as (payload & ev & E & Hlen & Hall & _ & Erun & Hlast & _).
  exists payload, ev.
  pose proof (sum_bytes_bound payload Hall) as Hs. rewrite Hlen in Hs.
  assert (Z.land (sum payload) 0xFFFF = sum payload) as Hland.
  { change 0xFFFF%Z with (Z.ones 16). apply land_ones_small; lia. }
  split; [exact E|]. split; [exact Erun|]. split; [lia|].
  split; [exact Hland|].
  rewrite Hlast. unfold bytes. now rewrite Hland.
Qed.

(** X7: the 4096 bytes of [send_data] sum to at most 0xFF000, so the 32-bit
    mask never changes the sum and the checksum is printed with three
    leading zeros at least; the latency printed lies between 140 and 160;
    the operation sleeps twice and writes three times. *)
Theorem send_data_checksum_and_latency (tape : nat -> N) (p : nat) :
  exists buf latency ev,
    collect 4096 (random_getrandbits tape 8) p = ([], Ret buf, 4096 + p) /\
    send_data tape p = (ev, Ret tt, S (4096 + p)) /\
    (0 <= sum buf <= 0xFF000)%Z /\
    (140 <= latency <= 160)%Z /\
    ev =
      [Out ((PyStr.nl
             +:+ "[CMD] Allocating buffer and sending 4KB data to Kernel_0...")
            +:+ PyStr.nl);
       Sleep 0.5; Sleep 1.0;
       Out (("[INFO] Data transfer complete. Buffer checksum=0x"
             +:+ PyStr.format_0X 8 (sum buf)) +:+ PyStr.nl);
       Out (("[RECV] Kernel_0 returned status OK. Latency: "
             +:+ PyStr.str_int latency +:+ " us.") +:+ PyStr.nl)].
Proof.
  destruct (collect_getrandbits tape 4096 p) as (buf & E & Hlen & Hall).
  destruct (randint_range tape (-10) 10 (4096 + p)) as (j & Ej & Hj); [lia|].
  exists buf, (150 + j)%Z. eexists.
  pose proof (sum_bytes_bound buf Hall) as Hs. rewrite Hlen in Hs.
  assert (Z.land (sum buf) 0xFFFFFFFF = sum buf) as Hland.
  { change 0xFFFFFFFF%Z with (Z.ones 32). apply land_ones_small; lia. }
  split; [exact E|].
  unfold send_data. run. rewrite E. run. rewrite Ej. run. rewrite Hland.
  split; [reflexivity|]. split; [lia|]. split; [lia|]. reflexivity.
Qed.

(** ** Printed temperatures and device fields *)

Lemma fpga_print_exact (j : Z) :
  (-16 <= j <= 16)%Z ->
  PyFloat.format_2f (62.5 + PyFloat.of_int j * 0.01)%float
  = hundredths_text (6250 + j).
Proof.
  intros Hj.
  assert (forallb (fun z =>
            String.eqb
              (PyFloat.format_2f (62.5 + PyFloat.of_int (z - 16) * 0.01)%float)
              (hundredths_text (6250 + (z - 16))))
            (range 33) = true) as H by (vm_compute; reflexivity).
  pose proof (range_forallb _ _ H (j + 16)%Z ltac:(simpl; lia)) as E.
  cbv beta in E. apply String.eqb_eq in E.
  replace (j + 16 - 16)%Z with j in E by lia. exact E.
Qed.

Lemma hbm_print_exact (j : Z) :
  (-8 <= j <= 8)%Z ->
  PyFloat.format_2f (58.2 + PyFloat.of_int j * 0.01)%float
  = hundredths_text (5820 + j).
Proof.
  intros Hj.
  assert (forallb (fun z =>
            String.eqb
              (PyFloat.format_2f (58.2 + PyFloat.of_int (z - 8) * 0.01)%float)
              (hundredths_text (5820 + (z - 8))))
            (range 17) = true) as H by (vm_compute; reflexivity).
  pose proof (range_forallb _ _ H (j + 8)%Z ltac:(simpl; lia)) as E.
  cbv beta in E. apply String.eqb_eq in E.
  replace (j + 8 - 8)%Z with j in E by lia. exact E.
Qed.

(** X8: [read_temp] prints its temperatures without rounding artefacts:
    for every draw the FPGA line shows exactly 62.50 plus the jitter in
    hundredths and the HBM line exactly 58.20 plus the jitter in
    hundredths, one hundredth per ADC count, next to the raw codes
    0x3E80 and 0x3B60 plus the same jitters. *)
Theorem read_temp_prints_exact_hundredths (tape : nat -> N) (p : nat) :
  exists j_fpga j_hbm,
    (-16 <= j_fpga <= 16)%Z /\ (-8 <= j_hbm <= 8)%Z /\
    read_temp tape p =
      ([Out ((PyStr.nl +:+ "[CMD] Reading thermal sensor array...")
             +:+ PyStr.nl);
        Sleep 0.6;
        Out (("[AXI-RD] FPGA ADC raw = 0x" +:+ PyStr.format_X (0x3E80 + j_fpga))
             +:+ PyStr.nl);
        Out (("[AXI-RD] HBM  ADC raw = 0x" +:+ PyStr.format_X (0x3B60 + j_hbm))
             +:+ PyStr.nl);
        Out (("[RECV] FPGA Die Temperature: "
              +:+ hundredths_text (6250 + j_fpga) +:+ " C") +:+ PyStr.nl);
        Out (("[RECV] HBM Stack Temperature: "
              +:+ hundredths_text (5820 + j_hbm) +:+ " C") +:+ PyStr.nl)],
       Ret tt, S (S p)).
Proof.
  destruct (randint_range tape (-16) 16 p) as (j1 & E1 & H1); [lia|].
  destruct (randint_range tape (-8) 8 (S p)) as (j2 & E2 & H2); [lia|].
  exists j1, j2. split; [exact H1|]. split; [exact H2|].
  unfold read_temp, temp_read. run. rewrite E1. run. rewrite E2. run.
  unfold temp_of_adc; cbn [adc_fpga adc_hbm temp_fpga temp_hbm].
  replace (0x3E80 + j1 - 0x3E80)%Z with j1 by lia.
  replace (0x3B60 + j2 - 0x3B60)%Z with j2 by lia.
  rewrite (fpga_print_exact j1 H1), (hbm_print_exact j2 H2). reflexivity.
Qed.

Lemma last_split_no_sep (sep : ascii) (s : string) :
  PyStr.contains (String sep "") (PyStr.last_item (PyStr.split sep s)) = false.
Proof.
  unfold PyStr.last_item. induction s as [|c s IH]; [reflexivity|].
  cbn [PyStr.split]. pose proof (split_nonempty sep s) as Hne.
  destruct (Ascii.eqb_spec c sep) as [->|Hc].
  - destruct (PyStr.split sep s) as [|l ls]; [congruence|]. exact IH.
  - destruct (PyStr.split sep s) as [|l [|l' ls]]; [congruence| |exact IH].
    cbn [List.last] in *. rewrite contains_char_cons, IH.
    destruct (Ascii.eqb_spec sep c); [congruence | reflexivity].
Qed.

Lemma contains_char_of_lstrip (c : ascii) (s : string) :
  PyStr.contains (String c "") (PyStr.lstrip s) = true ->
  PyStr.contains (String c "") s = true.
Proof.
  induction s as [|a s IH]; [auto|]. cbn [PyStr.lstrip].
  destruct (PyStr.isspace a); [|auto].
  intros H. rewrite contains_char_cons, (IH H). apply orb_true_r.
Qed.

Lemma contains_char_of_rstrip (c : ascii) (s : string) :
  PyStr.contains (String c "") (PyStr.rstrip s) = true ->
  PyStr.contains (String c "") s = true.
Proof.
  induction s as [|a s IH]; [auto|]. cbn [PyStr.rstrip].
  rewrite contains_char_cons.
  destruct (PyStr.rstrip s) as [|b r].
  - destruct (PyStr.isspace a); [discriminate|].
    rewrite contains_char_cons. intros H.
    apply orb_true_iff in H as [H|H]; [now rewrite H | discriminate H].
  - rewrite contains_char_cons. intros H.
    apply orb_true_iff in H as [H|H]; [now rewrite H|].
    rewrite (IH H). apply orb_true_r.
Qed.

Lemma field_or_no_colon (l : option string) (fallback : string) :
  PyStr.contains ":" fallback = false ->
  PyStr.contains ":" (field_or l fallback) = false.
Proof.
  intros Hf. unfold field_or. destruct l as [line|]; [|exact Hf].
  destruct (truthy (Some line)); [|exact Hf].
  destruct (PyStr.contains ":"
              (PyStr.strip (PyStr.last_item (PyStr.split ":" line)))) eqn:E;
    [|reflexivity].
  apply contains_char_of_rstrip, contains_char_of_lstrip in E.
  now rewrite last_split_no_sep in E.
Qed.

Lemma lstrip_idem (s : string) : PyStr.lstrip (PyStr.lstrip s) = PyStr.lstrip s.
Proof.
  induction s as [|a s IH]; [reflexivity|]. cbn [PyStr.lstrip].
  destruct (PyStr.isspace a) eqn:Ha; [exact IH|].
  cbn [PyStr.lstrip]. now rewrite Ha.
Qed.

Lemma rstrip_cons (a : ascii) (s : string) :
  PyStr.rstrip (String a s)
  = match PyStr.rstrip s with
    | EmptyString => if PyStr.isspace a then EmptyString else String a EmptyString
    | r => String a r
    end.
Proof. reflexivity. Qed.

Lemma rstrip_idem (s : string) : PyStr.rstrip (PyStr.rstrip s) = PyStr.rstrip s.
Proof.
  induction s as [|a s IH]; [reflexivity|]. rewrite rstrip_cons.
  destruct (PyStr.rstrip s) as [|b r] eqn:E.
  - destruct (PyStr.isspace a) eqn:Ha; [reflexivity|].
    rewrite rstrip_cons. cbn [PyStr.rstrip]. now rewrite Ha.
  - rewrite rstrip_cons, IH. reflexivity.
Qed.

Lemma lstrip_rstrip (s : string) :
  PyStr.lstrip (PyStr.rstrip s) = PyStr.rstrip (PyStr.lstrip s).
Proof.
  induction s as [|a s IH]; [reflexivity|].
  rewrite rstrip_cons. cbn [PyStr.lstrip].
  destruct (PyStr.isspace a) eqn:Ha.
  - rewrite <- IH. destruct (PyStr.rstrip s) as [|b r]; [reflexivity|].
    cbn [PyStr.lstrip]. now rewrite Ha.
  - rewrite rstrip_cons.
    destruct (PyStr.rstrip s) as [|b r]; cbn [PyStr.lstrip]; now rewrite Ha.
Qed.

Lemma strip_idem (s : string) : PyStr.strip (PyStr.strip s) = PyStr.strip s.
Proof.
  unfold PyStr.strip.
  now rewrite lstrip_rstrip, rstrip_idem, lstrip_idem.
Qed.

Lemma field_or_stripped (l : option string) (fallback : string) :
  PyStr.strip fallback = fallback ->
  PyStr.strip (field_or l fallback) = field_or l fallback.
Proof.
  intros Hf. unfold field_or. destruct l as [line|]; [|exact Hf].
  destruct (truthy (Some line)); [apply strip_idem | exact Hf].
Qed.

(** X9: whatever the query does, the device and serial fields of
    [get_device_info] hold no colon and no surrounding white space: a value
    with colons of its own is cut to the text after its last colon. *)
Theorem device_fields_have_no_colon (xbutil : run_result) (p : nat) :
  exists info,
    get_device_info xbutil p = ([], Ret info, p) /\
    PyStr.contains ":" (device info) = false /\
    PyStr.contains ":" (serial info) = false /\
    PyStr.strip (device info) = device info /\
    PyStr.strip (serial info) = serial info.
Proof.
  unfold get_device_info, try_except, run_xbutil_examine.
  destruct xbutil as [stdout | e]; run.
  - eexists. split; [reflexivity|]. cbn [device serial].
    repeat split;
      first [ apply field_or_no_colon; reflexivity
            | apply field_or_stripped; reflexivity ].
  - exists fallback_info. repeat split.
Qed.

(** ** The configuration file *)

Lemma parse_config_ignores (lines : list string) (config : gmap string string)
  (p : nat) :
  Forall (fun line => PyStr.contains "=" line = false) lines ->
  parse_config lines config p = ([], Ret config, p).
Proof.
  induction 1 as [|line lines Hl _ IH]; [reflexivity|].
  cbn [parse_config]. unfold parse_line. rewrite Hl. run. now rewrite IH.
Qed.

Lemma parse_line_pure (line : string) (config : gmap string string) (p : nat) :
  exists c', parse_line line config p = ([], Ret c', p).
Proof.
  unfold parse_line. destruct (PyStr.contains "=" line) eqn:Heq.
  - destruct (split1_two "=" (PyStr.strip line)) as (k & v & ->).
    { apply contains_char_rstrip, contains_char_lstrip;
        [reflexivity | reflexivity | exact Heq]. }
    eexists. reflexivity.
  - eexists. reflexivity.
Qed.

Lemma parse_config_app (l1 l2 : list string) (config : gmap string string)
  (p : nat) :
  exists c1,
    parse_config l1 config p = ([], Ret c1, p) /\
    parse_config (l1 ++ l2) config p = parse_config l2 c1 p.
Proof.
  revert config. induction l1 as [|line l1 IH]; intros config.
  - exists config. split; reflexivity.
  - cbn [parse_config app].
    destruct (parse_line_pure line config p) as (c' & E).
    destruct (IH c') as (c1 & E1 & E2). exists c1.
    run. rewrite E. run. rewrite E1, E2. split; [reflexivity|].
    destruct (parse_config l2 c1 p) as [[ev o] q]. destruct o; reflexivity.
Qed.

Lemma lstrip_key_value (k v : string) :
  PyStr.lstrip (k +:+ String "=" v) = PyStr.lstrip k +:+ String "=" v.
Proof.
  induction k as [|a k IH]; [reflexivity|].
  change (String a k +:+ String "=" v) with (String a (k +:+ String "=" v)).
  cbn [PyStr.lstrip]. destruct (PyStr.isspace a); [exact IH | reflexivity].
Qed.

Lemma rstrip_key_value (k v : string) :
  PyStr.rstrip (k +:+ String "=" v) = k +:+ String "=" (PyStr.rstrip v).
Proof.
  induction k as [|a k IH].
  - change (EmptyString +:+ String "=" v) with (String "=" v).
    rewrite rstrip_cons. destruct (PyStr.rstrip v); reflexivity.
  - change (String a k +:+ String "=" v) with (String a (k +:+ String "=" v)).
    rewrite rstrip_cons, IH. destruct k; reflexivity.
Qed.

Lemma split1_key_value (k v : string) :
  PyStr.contains "=" k = false ->
  PyStr.split1 "=" (k +:+ String "=" v) = [k; v].
Proof.
  induction k as [|a k IH]; intros H; [reflexivity|].
  rewrite contains_char_cons in H. apply orb_false_iff in H as [Ha H].
  change (String a k +:+ String "=" v) with (String a (k +:+ String "=" v)).
  cbn [PyStr.split1]. rewrite (IH H).
  destruct (Ascii.eqb_spec a "="%char) as [->|_]; [discriminate Ha|].
  reflexivity.
Qed.

Lemma contains_app_r (c : ascii) (a b : string) :
  PyStr.contains (String c "") b = true ->
  PyStr.contains (String c "") (a +:+ b) = true.
Proof.
  intros H. induction a as [|x a IH]; [exact H|].
  change (String x a +:+ b) with (String x (a +:+ b)).
  rewrite contains_char_cons, IH. apply orb_true_r.
Qed.

(** Parsing one more line [key=value]. *)
Lemma parse_config_snoc
  (lines : list string) (key value : string) (config : gmap string string)
  (p : nat) :
  PyStr.contains "=" key = false ->
  exists c1 c2,
    parse_config lines config p = ([], Ret c1, p) /\
    parse_config (lines ++ [key +:+ "=" +:+ value]) config p
    = ([], Ret c2, p) /\
    c2 = <[PyStr.strip key := PyStr.strip value]> c1 /\
    c2 !! PyStr.strip key = Some (PyStr.strip value).
Proof.
  intros Hk.
  destruct (parse_config_app lines [key +:+ "=" +:+ value] config p)
    as (c1 & E1 & E2).
  exists c1, (<[PyStr.strip key := PyStr.strip value]> c1).
  split; [exact E1|]. split; [|split; [reflexivity | apply lookup_insert_eq]].
  rewrite E2. cbn [parse_config]. unfold parse_line.
  change (key +:+ "=" +:+ value) with (key +:+ String "=" value).
  rewrite (contains_app_r "=" key (String "=" value) eq_refl).
  unfold PyStr.strip at 1. rewrite lstrip_key_value, rstrip_key_value.
  rewrite split1_key_value.
  2:{ destruct (PyStr.contains "=" (PyStr.lstrip key)) eqn:E; [|reflexivity].
      apply contains_char_of_lstrip in E. congruence. }
  run. do 2 f_equal.
  assert (PyStr.strip (PyStr.lstrip key) = PyStr.strip key) as ->
    by (unfold PyStr.strip; now rewrite lstrip_idem).
  assert (PyStr.strip (PyStr.rstrip value) = PyStr.strip value) as ->
    by (unfold PyStr.strip; now rewrite lstrip_rstrip, rstrip_idem).
  reflexivity.
Qed.

(** X10: the loop that parses the configuration never raises, writes
    nothing and reads no random draw, whatever the lines are; and parsing
    lines one after the other is parsing the second list from the
    dictionary the first list left. *)
Theorem parse_config_never_raises
  (lines more : list string) (config : gmap string string) (p : nat) :
  exists c1,
    parse_config lines config p = ([], Ret c1, p) /\
    parse_config (lines ++ more) config p = parse_config more c1 p.
Proof. exact (parse_config_app lines more config p). Qed.

(** X11: a last line [key=value], for a key without equals sign, binds the
    stripped key to the stripped value, whatever the lines before bound it
    to and whatever equals signs the value holds. *)
Theorem config_last_assignment_wins
  (lines : list string) (key value : string) (config : gmap string string)
  (p : nat) :
  PyStr.contains "=" key = false ->
  exists c1 c2,
    parse_config lines config p = ([], Ret c1, p) /\
    parse_config (lines ++ [key +:+ "=" +:+ value]) config p
    = ([], Ret c2, p) /\
    c2 = <[PyStr.strip key := PyStr.strip value]> c1 /\
    c2 !! PyStr.strip key = Some (PyStr.strip value).
Proof. exact (parse_config_snoc lines key value config p). Qed.

(** ** Ends of the loop, of the module level and of the script *)

Lemma menu_loop_quit
  (tape : nat -> N) (os_name : string) (devinfo : DeviceInfo)
  (choice : string) (rest : list string) (p : nat) :
  parse_choice choice = CmdQuit ->
  menu_loop tape os_name devinfo (choice :: rest) p
  = (screen_events os_name devinfo ++ farewell, Ret tt, p).
Proof.
  intros H. cbn [menu_loop]. rewrite H. reflexivity.
Qed.

(** X5: on every input the loop ends normally or dies with [EOFError],
    never by [sys.exit] or another exception; the random cursor never goes
    back; and the exit status is 0 exactly when the loop ended normally. *)
Theorem menu_loop_ends_by_quit_or_eof
  (tape : nat -> N) (os_name : string) (devinfo : DeviceInfo)
  (stdin : list string) (p : nat) :
  exists ev o p',
    menu_loop tape os_name devinfo stdin p = (ev, o, p') /\
    (o = Ret tt \/ o = Raise EOFError) /\
    p <= p' /\
    (exit_status o = 0%Z <-> o = Ret tt).
Proof.
  assert (forall n stdin p, length stdin <= n ->
            exists ev o p',
              menu_loop tape os_name devinfo stdin p = (ev, o, p') /\
              (o = Ret tt \/ o = Raise EOFError) /\ p <= p') as H.
  { induction n as [|n IH]; intros l q Hlen.
    - destruct l; [|simpl in Hlen; lia].
      do 3 eexists. split; [reflexivity|]. split; [auto | lia].
    - destruct l as [|choice rest].
      { do 3 eexists. split; [reflexivity|]. split; [auto | lia]. }
      destruct (String.eqb_spec (PyStr.lower choice) "q") as [Hq|Hq].
      + assert (parse_choice choice = CmdQuit) as Hc.
        { destruct (parse_choice_cases choice)
            as [[E _]|[[E _]|[[E _]|[[E _]|[(_ & _ & P)|(_ & L & _)]]]]];
            try (subst choice; discriminate Hq); [exact P | congruence]. }
        rewrite (menu_loop_quit _ _ _ _ _ _ Hc).
        do 3 eexists. split; [reflexivity|]. split; [auto | lia].
      + destruct rest as [|ack rest].
        * destruct (menu_loop_step tape os_name devinfo choice "" [] q Hq)
            as (ev1 & p1 & _ & Hp & _ & E).
          rewrite E. do 3 eexists. split; [reflexivity|]. split; [auto | lia].
        * destruct (menu_loop_step tape os_name devinfo choice ack rest q Hq)
            as (ev1 & p1 & _ & Hp & E & _).
          destruct (IH rest p1 ltac:(simpl in Hlen; lia))
            as (ev & o & p' & Erest & Ho & Hp').
          rewrite E, Erest. do 3 eexists. split; [reflexivity|].
          split; [exact Ho | lia]. }
  destruct (H (length stdin) stdin p (le_n _)) as (ev & o & p' & E & Ho & Hp).
  exists ev, o, p'. split; [exact E|]. split; [exact Ho|]. split; [exact Hp|].
  destruct Ho as [-> | ->]; simpl; split; intros; (reflexivity || discriminate).
Qed.

(** X12: a configuration file none of whose lines holds an equals sign
    (an empty file, comments) defines no target device: the module level
    ends in [sys.exit] with the message of line 30 and status 1, before the
    bitstream directory is looked at, whatever is imported. *)
Theorem startup_without_target_device
  (lines : list string) (bit_dir : list (string * float))
  (imports : list string) (p : nat) :
  Forall (fun line => PyStr.contains "=" line = false) lines ->
  startup (Some lines) bit_dir imports p
  = ([Err no_target_message], Exit 1%Z, p).
Proof.
  intros H. unfold startup. run. rewrite (parse_config_ignores lines ∅ p H).
  run. reflexivity.
Qed.

(** X13: a last line [TARGET_DEVICE=value] whose value is empty or white
    space counts as no definition: the module level ends in [sys.exit] with
    the message of line 30 and status 1, whatever the lines before. *)
Theorem startup_empty_target_device
  (lines : list string) (value : string) (bit_dir : list (string * float))
  (imports : list string) (p : nat) :
  PyStr.strip value = "" ->
  startup (Some (lines ++ ["TARGET_DEVICE" +:+ "=" +:+ value])) bit_dir imports p
  = ([Err no_target_message], Exit 1%Z, p).
Proof.
  intros Hv. unfold startup. run.
  destruct (parse_config_snoc lines "TARGET_DEVICE" value ∅ p eq_refl)
    as (c1 & c2 & _ & E & _ & Hl).
  change (PyStr.strip "TARGET_DEVICE") with "TARGET_DEVICE" in Hl.
  rewrite E. run. rewrite Hl, Hv. reflexivity.
Qed.

Lemma get_device_info_total (xbutil : run_result) (p : nat) :
  exists info, get_device_info xbutil p = ([], Ret info, p).
Proof.
  unfold get_device_info, try_except, run_xbutil_examine.
  destruct xbutil; run; eexists; reflexivity.
Qed.

(** X14: when a coin fails or the bitstream is missing, the [__main__]
    block ends with status 1 right after [program_device], whatever the
    input and the answer of the query are: its trace is the clearing of the
    screen followed by the trace of [program_device] and nothing else, so
    that no header, menu or prompt is written, and the completion line is
    not written. *)
Theorem main_stops_when_programming_fails
  (tape : nat -> N) (os_name : string) (bitstream_exists : bool)
  (xbutil : run_result) (g : globals) (stdin : list string) (p : nat) :
  all_succeed tape bitstream_exists p = false ->
  exists ev,
    program_device tape bitstream_exists g p
    = (ev, Exit 1%Z, 2 * steps_run tape bitstream_exists p + p) /\
    main tape os_name bitstream_exists xbutil g stdin p
    = (System "clear" :: ev, Exit 1%Z,
       2 * steps_run tape bitstream_exists p + p) /\
    existsb (String.eqb completed_line) (writes ev) = false.
Proof.
  intros H.
  destruct (program_device_run_cases tape bitstream_exists g p)
    as (ev & E & _ & Hw).
  rewrite H in E, Hw. exists ev. split; [exact E|]. split; [|exact Hw].
  unfold main. run. rewrite E. reflexivity.
Qed.

(** X15: when the five coins succeed and the bitstream is there, a first
    input line "q" or "Q" makes the [__main__] block end normally, which is
    exit status 0, whatever the later input is: its trace is the clearing of
    the screen, the trace of [program_device], one drawing of the header and
    the menu with the record [get_device_info] gives for the answer of the
    query, and the farewell; the ten draws of [program_device] are the only
    ones read. *)
Theorem main_quit_exits_zero
  (tape : nat -> N) (os_name : string) (bitstream_exists : bool)
  (xbutil : run_result) (g : globals) (quit : string) (rest : list string)
  (p : nat) :
  all_succeed tape bitstream_exists p = true ->
  quit = "q" \/ quit = "Q" ->
  exists ev info,
    program_device tape bitstream_exists g p = (ev, Ret tt, 10 + p) /\
    get_device_info xbutil (10 + p) = ([], Ret info, 10 + p) /\
    main tape os_name bitstream_exists xbutil g (quit :: rest) p
    = (System "clear" :: ev ++ screen_events os_name info ++ farewell,
       Ret tt, 10 + p) /\
    exit_status (Ret tt) = 0%Z.
Proof.
  intros H Hq.
  destruct (program_device_run_cases tape bitstream_exists g p)
    as (ev & E & _ & _).
  rewrite H in E.
  assert (steps_run tape bitstream_exists p = 5) as Hn.
  { unfold all_succeed in H. unfold steps_run.
    repeat (apply andb_true_iff in H as [H ?]).
    repeat match goal with Hc : _ = true |- _ => rewrite Hc; clear Hc end.
    reflexivity. }
  rewrite Hn in E. change (2 * 5 + p) with (10 + p) in E.
  destruct (get_device_info_total xbutil (10 + p)) as (info & Ei).
  exists ev, info. split; [exact E|]. split; [exact Ei|]. split; [|reflexivity].
  unfold main. run. rewrite E. run. rewrite Ei. run.
  rewrite (menu_loop_quit tape os_name info quit rest (10 + p)).
  - reflexivity.
  - destruct Hq as [-> | ->]; reflexivity.
Qed.

(** ** Concrete runs of the further properties *)

(** X3 at the line "1". *)
Lemma menu_iteration_witness :
  PyStr.lower "1" <> "q" /\
  exists ev1 p1,
    run_command zeros (parse_choice "1") 0 = (ev1, Ret true, p1) /\
    0 <= p1 /\
    menu_loop zeros "posix" fallback_info ["1"; ""; "q"] 0 =
      (let '(ev, o, p') := menu_loop zeros "posix" fallback_info ["q"] p1 in
       (screen_events "posix" fallback_info ++ ev1 ++ Out ack_prompt :: ev,
        o, p')) /\
    menu_loop zeros "posix" fallback_info ["1"] 0 =
      (screen_events "posix" fallback_info ++ ev1 ++ [Out ack_prompt],
       Raise EOFError, p1).
Proof.
  split; [discriminate|].
  apply (menu_iteration zeros "posix" fallback_info "1" "" ["q"] 0).
  discriminate.
Defined.

(** X4 on an input without quit line. *)
Lemma menu_loop_without_quit_witness :
  Forall (fun line => PyStr.lower line <> "q") ["1"; ""; "x"] /\
  exists ev p',
    menu_loop zeros "posix" fallback_info ["1"; ""; "x"] 0
    = (ev, Raise EOFError, p') /\
    exit_status (Raise EOFError : outcome unit) = 1%Z /\
    0 <= p'.
Proof.
  assert (Forall (fun line => PyStr.lower line <> "q") ["1"; ""; "x"]) as H
    by (repeat constructor; discriminate).
  split; [exact H|].
  exact (menu_loop_without_quit zeros "posix" fallback_info ["1"; ""; "x"] 0 H).
Defined.

(** X11 on a file that defines the target device twice. *)
Lemma config_last_assignment_wins_witness :
  PyStr.contains "=" "TARGET_DEVICE " = false /\
  exists c1 c2,
    parse_config ["# board"; "TARGET_DEVICE=old"] ∅ 0 = ([], Ret c1, 0) /\
    parse_config (["# board"; "TARGET_DEVICE=old"]
                  ++ ["TARGET_DEVICE " +:+ "=" +:+ " new=1 "]) ∅ 0
    = ([], Ret c2, 0) /\
    c2 = <[PyStr.strip "TARGET_DEVICE " := PyStr.strip " new=1 "]> c1 /\
    c2 !! PyStr.strip "TARGET_DEVICE " = Some (PyStr.strip " new=1 ").
Proof.
  split; [reflexivity|].
  apply (config_last_assignment_wins
           ["# board"; "TARGET_DEVICE=old"] "TARGET_DEVICE " " new=1 " ∅ 0).
  reflexivity.
Defined.

(** X12 on a file of a comment and an empty line. *)
Lemma startup_without_target_device_witness :
  Forall (fun line => PyStr.contains "=" line = false)
         ["# no device yet" +:+ PyStr.nl; PyStr.nl] /\
  startup (Some ["# no device yet" +:+ PyStr.nl; PyStr.nl]) example_bit_dir
          module_imports 0
  = ([Err no_target_message], Exit 1%Z, 0).
Proof.
  assert (Forall (fun line => PyStr.contains "=" line = false)
                 ["# no device yet" +:+ PyStr.nl; PyStr.nl]) as H
    by (repeat constructor).
  split; [exact H|].
  exact (startup_without_target_device _ example_bit_dir module_imports 0 H).
Defined.

(** X13 on a value of blanks. *)
Lemma startup_empty_target_device_witness :
  PyStr.strip ("  " +:+ PyStr.nl) = "" /\
  startup (Some (["TARGET_DEVICE=u50" +:+ PyStr.nl]
                 ++ ["TARGET_DEVICE" +:+ "=" +:+ ("  " +:+ PyStr.nl)]))
          example_bit_dir module_imports 0
  = ([Err no_target_message], Exit 1%Z, 0).
Proof.
  split; [reflexivity|].
  apply (startup_empty_target_device
           ["TARGET_DEVICE=u50" +:+ PyStr.nl] ("  " +:+ PyStr.nl)
           example_bit_dir module_imports 0).
  reflexivity.
Defined.

(** X14 on a first coin that fails. *)
Lemma main_stops_when_programming_fails_witness :
  all_succeed (one_at 1) true 0 = false /\
  exists ev,
    program_device (one_at 1) true example_globals 0
    = (ev, Exit 1%Z, 2 * steps_run (one_at 1) true 0 + 0) /\
    main (one_at 1) "posix" true (Failed FileNotFoundError) example_globals
         ["1"; ""; "q"] 0
    = (System "clear" :: ev, Exit 1%Z, 2 * steps_run (one_at 1) true 0 + 0) /\
    existsb (String.eqb completed_line) (writes ev) = false.
Proof.
  split; [reflexivity|].
  apply (main_stops_when_programming_fails
           (one_at 1) "posix" true (Failed FileNotFoundError) example_globals
           ["1"; ""; "q"] 0).
  reflexivity.
Defined.

(** X15 on coins that all succeed and the line "Q". *)
Lemma main_quit_exits_zero_witness :
  all_succeed zeros true 0 = true /\
  ("Q" = "q" \/ "Q" = "Q") /\
  exists ev info,
    program_device zeros true example_globals 0 = (ev, Ret tt, 10 + 0) /\
    get_device_info (Failed FileNotFoundError) (10 + 0)
    = ([], Ret info, 10 + 0) /\
    main zeros "posix" true (Failed FileNotFoundError) example_globals
         ["Q"; "1"] 0
    = (System "clear" :: ev ++ screen_events "posix" info ++ farewell,
       Ret tt, 10 + 0) /\
    exit_status (Ret tt) = 0%Z.
Proof.
  split; [reflexivity|]. split; [right; reflexivity|].
  apply (main_quit_exits_zero
           zeros "posix" true (Failed FileNotFoundError) example_globals
           "Q" ["1"] 0).
  - reflexivity.
  - right. reflexivity.
Defined.

(** ** The dispatch of a line *)








(** X2 at the call of step 4. *)
Lemma progress_bar_transcript_witness :
  (0 <= PROGRAM_DURATION <= 1000000000)%Z /\
  progress_bar PROGRAM_DURATION "Transferring bitstream via xbflash..." 0
  = (flat_map (fun i =>
                 [Out (bar_line "Transferring bitstream via xbflash..." i);
                  Sleep (PyFloat.of_int PROGRAM_DURATION / 50)%float])
              (range 51)
     ++ [Out PyStr.nl],
     Ret tt, 0).
Proof.
  assert (0 <= PROGRAM_DURATION <= 1000000000)%Z as H
    by (unfold PROGRAM_DURATION; lia).
  split; [exact H|].
  exact (progress_bar_transcript PROGRAM_DURATION
           "Transferring bitstream via xbflash..." 0 H).
Defined.
